(** * The creative pipeline of ai-text-to-3d-pipeline, modelled in Rocq

    Shallow embedding of
    - [app/core/llm/ollama_llama.py]        (class [OllamaLlama]),
    - [app/core/memory/memory_manager.py]   (class [MemoryManager]),
    - [app/core/pipeline/generator.py]      (class [CreativePipeline]).

    Modelling conventions.
    - Python [str] is [string]; text is taken to be ASCII: [lower] folds
      [A-Z] only and whitespace is the ASCII part of [str.isspace].
    - Python [dict]s are [gmap string pyval]; a missing key is a missing
      binding, [None] is the value [VNone].
    - Exceptions are values of type [exn]; effectful code lives in the
      monad [Py], which threads the [World] and either returns or raises.
    - Everything outside the process (the Openfabric stub, the Ollama HTTP
      endpoint, SQLite faults, [uuid4], the clock, the random generator, the
      iteration order of a [set]) is read from an [Env] of oracles, so that
      a theorem quantified over [Env] covers every behaviour of the
      surroundings.  Local file writes and logging are taken to succeed. *)

From Stdlib Require Import Ascii String ZArith Lia.
From stdpp Require Import base list strings gmap pretty.

#[local] Open Scope string_scope.

(** ** Python string operations used by the sources *)

Module PyStr.

Definition chars : string → list ascii := list_ascii_of_string.

Definition code (c : ascii) : N := N_of_ascii c.

Definition isupper (c : ascii) : bool :=
  ((65 <=? code c) && (code c <=? 90))%N.

Definition lower_char (c : ascii) : ascii :=
  if isupper c then ascii_of_N (code c + 32) else c.

(** [str.isspace] on the ASCII range: TAB..CR, FS..US and the blank. *)
Definition isspace (c : ascii) : bool :=
  ((9 <=? code c) && (code c <=? 13) || (28 <=? code c) && (code c <=? 32))%N.

(** [s.lower()] *)
Fixpoint lower (s : string) : string :=
  match s with
  | EmptyString => EmptyString
  | String c r => String (lower_char c) (lower r)
  end.

(** [s.replace(old, new)] for one-character [old] and [new] *)
Fixpoint replace (old new : ascii) (s : string) : string :=
  match s with
  | EmptyString => EmptyString
  | String c r =>
      String (if Ascii.eqb c old then new else c) (replace old new r)
  end.

Definition snoc (s : string) (c : ascii) : string := s +:+ String c "".

(** [s.split()]: runs of whitespace separate the words, no empty word *)
Fixpoint split_go (cur : string) (s : string) : list string :=
  match s with
  | EmptyString => if String.eqb cur "" then [] else [cur]
  | String c r =>
      if isspace c
      then (if String.eqb cur "" then split_go "" r else cur :: split_go "" r)
      else split_go (snoc cur c) r
  end.

Definition split (s : string) : list string := split_go "" s.

(** [s.split(sep)] for a one-character [sep]: every separator cuts, empty
    pieces are kept, and the result is never the empty list *)
Fixpoint split_sep_go (sep : ascii) (cur : string) (s : string) : list string :=
  match s with
  | EmptyString => [cur]
  | String c r =>
      if Ascii.eqb c sep
      then cur :: split_sep_go sep "" r
      else split_sep_go sep (snoc cur c) r
  end.

Definition split_sep (sep : ascii) (s : string) : list string :=
  split_sep_go sep "" s.

(** [sep.join(l)] *)
Fixpoint join (sep : string) (l : list string) : string :=
  match l with
  | [] => ""
  | [x] => x
  | x :: rest => x +:+ sep +:+ join sep rest
  end.

(** [needle in hay] *)
Fixpoint contains (needle hay : string) : bool :=
  String.prefix needle hay ||
  match hay with
  | EmptyString => false
  | String _ r => contains needle r
  end.

(** [s.startswith(p)], [s.endswith(c)] for one character *)
Definition startswith (p s : string) : bool := String.prefix p s.

Fixpoint endswith_char (c : ascii) (s : string) : bool :=
  match s with
  | EmptyString => false
  | String d EmptyString => Ascii.eqb d c
  | String _ r => endswith_char c r
  end.

End PyStr.

(** ** Tag extraction: [CreativePipeline._extract_tags] *)

(** The iteration order of a Python [set] is not specified.  A
    [set_order] maps the insertion sequence to the sequence [list(set(..))]
    yields; [set_order_ok] says what every such order satisfies. *)
Definition set_order := list string → list string.

Definition set_order_ok (set_iter : set_order) : Prop :=
  ∀ l : list string, NoDup (set_iter l) ∧ ∀ x, x ∈ set_iter l ↔ x ∈ l.

(** One concrete order: first occurrences, in insertion order. *)
Definition insertion_order : set_order := remove_dups.

Definition stopwords : gset string :=
  {[ "a"; "the"; "and"; "of"; "for"; "with"; "in"; "on"; "at" ]}.

Definition keep_word (word : string) : Prop :=
  3 < String.length word ∧ word ∉ stopwords.

#[global] Instance keep_word_dec word : Decision (keep_word word).
Proof. unfold keep_word. apply _. Defined.

Definition _extract_tags (set_iter : set_order) (prompt : string) : list string :=
  let words := PyStr.split (PyStr.replace "," " " (PyStr.lower prompt)) in
  let tags := filter keep_word words in
  take 10 (set_iter tags).

Definition dragon_prompt : string :=
  "A Majestic Dragon, Glowing Scales, Golden Hour".

Definition dragon_tags : list string :=
  ["majestic"; "dragon"; "glowing"; "scales"; "golden"; "hour"].

(** ** Python values, exceptions and the effect monad *)

Inductive pyval : Type :=
| VNone
| VBool (b : bool)
| VInt (n : Z)
| VFloat (num : Z) (den : positive)
| VStr (s : string)
| VBytes (b : string)
| VList (l : list string).

(** A Python [dict] with string keys. *)
Abbreviation dict := (gmap string pyval).

(** [bool(v)] *)
Definition truthy (v : pyval) : bool :=
  match v with
  | VNone => false
  | VBool b => b
  | VInt n => negb (n =? 0)%Z
  | VFloat n _ => negb (n =? 0)%Z
  | VStr s => negb (String.eqb s "")
  | VBytes b => negb (String.eqb b "")
  | VList l => match l with [] => false | _ => true end
  end.

(** A value that is [None] or a [str], as the path variables are. *)
Definition opt_str (o : option string) : pyval :=
  match o with Some s => VStr s | None => VNone end.

Definition truthy_path (o : option string) : bool := truthy (opt_str o).

Record exn : Type := Exn { exn_class : string; exn_msg : string }.

(** [str(e)] *)
Definition str_exn (e : exn) : string := exn_msg e.

Definition ValueError (msg : string) : exn := Exn "ValueError" msg.
Definition TypeError (msg : string) : exn := Exn "TypeError" msg.
Definition KeyError (key : string) : exn := Exn "KeyError" ("'" +:+ key +:+ "'").
Definition AttributeError (msg : string) : exn := Exn "AttributeError" msg.
Definition UnboundLocalError (var : string) : exn :=
  Exn "UnboundLocalError"
      ("cannot access local variable '" +:+ var
       +:+ "' where it is not associated with a value").

Inductive outcome (A : Type) : Type :=
| Return (a : A)
| Raise (e : exn).
Arguments Return {A} a.
Arguments Raise {A} e.

Inductive stub_event : Type :=
| SchemaEvent (app_id : string) (direction : string)
| CallEvent (app_id : string) (request : dict) (user_id : string).

(** A row of the table [creations]; a column holds NULL or TEXT. *)
Record creation_row : Type := Row {
  col_id : Z;
  col_creation_date : option string;
  col_prompt : option string;
  col_enhanced_prompt : option string;
  col_image_path : option string;
  col_model_path : option string;
  col_video_path : option string;
  col_tags : option string;
  col_user_id : option string
}.

(** The reply of [requests.post]. *)
Record http_response : Type := HttpResponse {
  status_code : Z;
  text : string;
  json : outcome (gmap string string)
}.

(** What the process can change. *)
Record World : Type := MkWorld {
  stub_log : list stub_event;          (* calls made on the stub, oldest first *)
  http_log : list string;              (* URL of every POST *)
  files : gmap string string;          (* artifact store: path to bytes *)
  uuid_count : nat;                    (* uuid4() calls so far *)
  rng_pos : nat;                       (* draws taken from the generator *)
  clock : nat;                         (* datetime.now() calls so far *)
  db_ops : nat;                        (* sqlite3.connect calls so far *)
  creations : list creation_row;       (* the table, oldest first *)
  creations_seq : Z;                   (* largest id ever assigned *)
  short_term_memory : dict
}.

(** What the process cannot control. *)
Record Env : Type := MkEnv {
  stub_schema : list stub_event → string → string → outcome pyval;
  stub_call : list stub_event → string → dict → string → outcome (option dict);
  http_post : string → dict → outcome http_response;
  uuid4_hex : nat → string;
  rng_tape : nat → nat;
  now_isoformat : nat → string;
  sqlite_fault : nat → option exn;
  open_fault : gmap string string → string → option exn;
  write_fault : gmap string string → string → option exn;
  set_iter : set_order;
  dockerenv_exists : bool;
  proc_1_cgroup : option string
}.

Definition Py (A : Type) : Type := World → outcome A * World.

Definition ret {A} (a : A) : Py A := λ w, (Return a, w).
Definition raise {A} (e : exn) : Py A := λ w, (Raise e, w).
Definition bind {A B} (m : Py A) (k : A → Py B) : Py B :=
  λ w, match m w with
       | (Return a, w') => k a w'
       | (Raise e, w') => (Raise e, w')
       end.
(** [try: m  except Exception as e: h e] *)
Definition try_except {A} (m : Py A) (h : exn → Py A) : Py A :=
  λ w, match m w with
       | (Return a, w') => (Return a, w')
       | (Raise e, w') => h e w'
       end.
Definition lift {A} (o : outcome A) : Py A := λ w, (o, w).
Definition get_world : Py World := λ w, (Return w, w).
Definition modify (f : World → World) : Py unit := λ w, (Return tt, f w).

Declare Scope py_scope.
Delimit Scope py_scope with py.
Notation "x <- m ;; k" := (bind m (λ x, k))
  (at level 100, m at next level, right associativity) : py_scope.
Notation "m ;;; k" := (bind m (λ _, k))
  (at level 100, right associativity) : py_scope.
#[local] Open Scope py_scope.

(** *** World updates *)

Definition log_stub (ev : stub_event) (w : World) : World :=
  MkWorld (stub_log w ++ [ev]) (http_log w) (files w) (uuid_count w)
          (rng_pos w) (clock w) (db_ops w) (creations w) (creations_seq w)
          (short_term_memory w).
Definition log_http (url : string) (w : World) : World :=
  MkWorld (stub_log w) (http_log w ++ [url]) (files w) (uuid_count w)
          (rng_pos w) (clock w) (db_ops w) (creations w) (creations_seq w)
          (short_term_memory w).
Definition set_file (path data : string) (w : World) : World :=
  MkWorld (stub_log w) (http_log w) (<[path := data]> (files w)) (uuid_count w)
          (rng_pos w) (clock w) (db_ops w) (creations w) (creations_seq w)
          (short_term_memory w).
Definition tick_uuid (w : World) : World :=
  MkWorld (stub_log w) (http_log w) (files w) (S (uuid_count w))
          (rng_pos w) (clock w) (db_ops w) (creations w) (creations_seq w)
          (short_term_memory w).
Definition tick_rng (w : World) : World :=
  MkWorld (stub_log w) (http_log w) (files w) (uuid_count w)
          (S (rng_pos w)) (clock w) (db_ops w) (creations w) (creations_seq w)
          (short_term_memory w).
Definition tick_clock (w : World) : World :=
  MkWorld (stub_log w) (http_log w) (files w) (uuid_count w)
          (rng_pos w) (S (clock w)) (db_ops w) (creations w) (creations_seq w)
          (short_term_memory w).
Definition tick_db (w : World) : World :=
  MkWorld (stub_log w) (http_log w) (files w) (uuid_count w)
          (rng_pos w) (clock w) (S (db_ops w)) (creations w) (creations_seq w)
          (short_term_memory w).
Definition add_row (r : creation_row) (w : World) : World :=
  MkWorld (stub_log w) (http_log w) (files w) (uuid_count w)
          (rng_pos w) (clock w) (db_ops w) (creations w ++ [r]) (col_id r)
          (short_term_memory w).
Definition set_short_term (key : string) (value : pyval) (w : World) : World :=
  MkWorld (stub_log w) (http_log w) (files w) (uuid_count w)
          (rng_pos w) (clock w) (db_ops w) (creations w) (creations_seq w)
          (<[key := value]> (short_term_memory w)).

(** An empty world, for examples. *)
Definition fresh_world : World :=
  MkWorld [] [] ∅ 0 0 0 0 [] 0 ∅.

(** ** Library functions the sources call *)

(** [os.path.join(a, *ps)] of posixpath *)
Definition os_path_join (a : string) (ps : list string) : string :=
  fold_left
    (λ path b,
       if PyStr.startswith "/" b then b
       else if String.eqb path "" || PyStr.endswith_char "/" path
            then path +:+ b
            else path +:+ "/" +:+ b)
    ps a.
#[global] Arguments os_path_join : simpl never.

Module Base64.

Definition alphabet : string :=
  "ABCDEFGHIJKLMNOPQRSTUVWXYZabcdefghijklmnopqrstuvwxyz0123456789+/".

Definition digit (n : N) : ascii :=
  match String.get (N.to_nat (n mod 64)) alphabet with
  | Some c => c
  | None => "="%char
  end.

Fixpoint encode (bs : list N) : string :=
  match bs with
  | [] => ""
  | [a] =>
      let n := (a * 65536)%N in
      String (digit (n / 262144)) (String (digit (n / 4096)) "==")
  | [a; b] =>
      let n := (a * 65536 + b * 256)%N in
      String (digit (n / 262144))
        (String (digit (n / 4096)) (String (digit (n / 64)) "="))
  | a :: b :: c :: rest =>
      let n := (a * 65536 + b * 256 + c)%N in
      String (digit (n / 262144))
        (String (digit (n / 4096))
           (String (digit (n / 64)) (String (digit n) (encode rest))))
  end.

(** [base64.b64encode(data).decode('utf-8')]; [data] must be bytes *)
Definition b64encode (data : pyval) : outcome string :=
  match data with
  | VBytes b => Return (encode (map N_of_ascii (PyStr.chars b)))
  | _ => Raise (TypeError "a bytes-like object is required")
  end.

End Base64.

(** SQLite's [LIKE]: [%] matches any run of characters, [_] any one
    character, every other character matches itself up to ASCII case;
    pattern and text end at their first NUL.  Patterns are taken to be
    within SQLite's limit on the length of a pattern. *)
Module Sqlite.

(** SQLite's [patternCompare] on the characters of two C strings. *)
Fixpoint pattern_compare (pattern s : string) : bool :=
  match pattern with
  | EmptyString => match s with EmptyString => true | _ => false end
  | String c pattern' =>
      if Ascii.eqb c "%" then
        (fix star (s : string) : bool :=
           pattern_compare pattern' s
           || match s with
              | EmptyString => false
              | String _ s' => star s'
              end) s
      else
        match s with
        | EmptyString => false
        | String d s' =>
            (Ascii.eqb c "_"
             || Ascii.eqb (PyStr.lower_char c) (PyStr.lower_char d))
            && pattern_compare pattern' s'
        end
  end.

(** The part of a text before its first NUL character: SQLite hands both
    operands of [LIKE] to [patternCompare] as C strings. *)
Fixpoint c_str (s : string) : string :=
  match s with
  | EmptyString => EmptyString
  | String c r => if Ascii.eqb c Ascii.zero then EmptyString else String c (c_str r)
  end.

(** [s LIKE pattern] on two TEXT values *)
Definition like (pattern s : string) : bool :=
  pattern_compare (c_str pattern) (c_str s).

(** [column LIKE pattern] in a [WHERE]: NULL never satisfies it *)
Definition col_like (column : option string) (pattern : string) : bool :=
  match column with
  | Some s => like pattern s
  | None => false
  end.

(** [column = value] in a [WHERE] *)
Definition col_eq (column : option string) (value : string) : bool :=
  match column with
  | Some s => String.eqb s value
  | None => false
  end.

(** Binding a Python argument to a [?]: the columns are TEXT and the
    callers pass [str] or [None]; a [list] cannot be bound. *)
Definition bind_param (v : pyval) : outcome (option string) :=
  match v with
  | VNone => Return None
  | VStr s => Return (Some s)
  | _ => Raise (Exn "sqlite3.ProgrammingError"
                    "Error binding parameter: type is not supported")
  end.

End Sqlite.

(** ** [OllamaLlama]: prompt enhancement *)

Module OllamaLlama.
Section Methods.
Context (env : Env).

Definition nl : string := String (ascii_of_nat 10) "".
Definition indent : string := "                    ".

(** The f-string of [enhance_prompt]. *)
Definition instructions (user_prompt : string) : string :=
  PyStr.join nl
    [ "";
      indent +:+ "You are an artistic prompt enhancer. Your job is to take simple user requests and transform them ";
      indent +:+ "into detailed, vivid descriptions for image and 3D generation. Include artistic style, lighting, ";
      indent +:+ "mood, colors, perspective, and detailed elements. Make it specific and visual but keep the core ";
      indent +:+ "idea intact. Format your response as a rich text description without any explanations or additional ";
      indent +:+ "content in maximum 200 words.";
      "";
      indent +:+ "Transform this prompt for image generation: ";
      indent +:+ "User Request: " +:+ user_prompt;
      "";
      indent +:+ "Include every detail of user request in the response. ";
      "                " ].

(** The f-string of [enhance_prompt_local]: one more blank after
    [200 words.] *)
Definition instructions_local (user_prompt : string) : string :=
  PyStr.join nl
    [ "";
      indent +:+ "You are an artistic prompt enhancer. Your job is to take simple user requests and transform them ";
      indent +:+ "into detailed, vivid descriptions for image and 3D generation. Include artistic style, lighting, ";
      indent +:+ "mood, colors, perspective, and detailed elements. Make it specific and visual but keep the core ";
      indent +:+ "idea intact. Format your response as a rich text description without any explanations or additional ";
      indent +:+ "content in maximum 200 words. ";
      "";
      indent +:+ "Transform this prompt for image generation: ";
      indent +:+ "User Request: " +:+ user_prompt;
      "";
      indent +:+ "Include every detail of user request in the response. ";
      "                " ].

(** [requests.post(url, json=payload)] *)
Definition requests_post (url : string) (payload : dict) : Py http_response :=
  λ w, (http_post env url payload, log_http url w).

(** [random.choice(seq)] *)
Definition random_choice (seq : list string) : Py string :=
  λ w,
    match seq !! (rng_tape env (rng_pos w) mod length seq) with
    | Some x => (Return x, tick_rng w)
    | None => (Raise (Exn "IndexError" "Cannot choose from an empty sequence"), w)
    end.

Definition art_styles : list string :=
  ["cinematic"; "fantasy art"; "photorealistic"; "digital painting"].
Definition lighting : list string :=
  ["dramatic lighting"; "golden hour sunlight"; "soft ambient light"; "moody shadows"].
Definition details : list string :=
  ["intricate details"; "high resolution"; "textured surfaces"; "vibrant colors"].

Definition _create_enhanced_prompt_fallback (basic_prompt : string) : Py string :=
  style <- random_choice art_styles ;;
  light <- random_choice lighting ;;
  detail <- random_choice details ;;
  let enhanced :=
    basic_prompt +:+ ", " +:+ style +:+ ", " +:+ light +:+ ", " +:+ detail
    +:+ ", masterfully crafted, 8k resolution" in
  ret enhanced.

Definition enhance_prompt (user_prompt : string) : Py string :=
  let url := "http://host.docker.internal:11434/api/generate" in
  let payload : dict :=
    {[ "model" := VStr "llama2";
       "prompt" := VStr (instructions user_prompt);
       "stream" := VBool false ]} in
  response <- requests_post url payload ;;
  if (status_code response =? 200)%Z then
    data <- lift (json response) ;;
    match data !! "response" with
    | Some r => ret r
    | None => raise (KeyError "response")
    end
  else
    _create_enhanced_prompt_fallback user_prompt.

Definition enhance_prompt_local (user_prompt : string) : Py string :=
  let url := "http://localhost:11434/api/generate" in
  let payload : dict :=
    {[ "model" := VStr "llama2";
       "prompt" := VStr (instructions_local user_prompt);
       "stream" := VBool false ]} in
  response <- requests_post url payload ;;
  if (status_code response =? 200)%Z then
    data <- lift (json response) ;;
    match data !! "response" with
    | Some r => ret r
    | None => raise (KeyError "response")
    end
  else
    _create_enhanced_prompt_fallback user_prompt.

End Methods.
End OllamaLlama.

(** ** [MemoryManager]: the ledger and the session cache *)

Module MemoryManager.
Section Methods.
Context (env : Env).

Definition save_to_short_term (key : string) (value : pyval) : Py unit :=
  modify (set_short_term key value).

Definition get_from_short_term (key : string) : Py pyval :=
  w <- get_world ;;
  ret (default VNone (short_term_memory w !! key)).

(** [sqlite3.connect] and the statements run on the connection: the
    environment decides whether this use of the database fails; a failed
    use changes no row. *)
Definition sqlite3_connect : Py unit :=
  λ w, match sqlite_fault env (db_ops w) with
       | Some e => (Raise e, tick_db w)
       | None => (Return tt, tick_db w)
       end.

Definition datetime_now_isoformat : Py string :=
  λ w, (Return (now_isoformat env (clock w)), tick_clock w).

(** [",".join(tags) if tags else ""] *)
Definition join_tags (tags : pyval) : outcome string :=
  if truthy tags then
    match tags with
    | VList l => Return (PyStr.join "," l)
    | VStr s => Return (PyStr.join "," (map (λ c, String c "") (PyStr.chars s)))
    | _ => Raise (TypeError "can only join an iterable")
    end
  else Return "".

(** [INSERT INTO creations (creation_date, prompt, enhanced_prompt,
    image_path, model_path, tags, user_id) VALUES (?, ?, ?, ?, ?, ?, ?)];
    yields [cursor.lastrowid].  The column [video_path] is not listed and
    stays NULL. *)
Definition insert_creation
    (creation_date prompt enhanced_prompt image_path model_path tags_str
       user_id : pyval) : Py Z :=
  c_date <- lift (Sqlite.bind_param creation_date) ;;
  c_prompt <- lift (Sqlite.bind_param prompt) ;;
  c_enhanced <- lift (Sqlite.bind_param enhanced_prompt) ;;
  c_image <- lift (Sqlite.bind_param image_path) ;;
  c_model <- lift (Sqlite.bind_param model_path) ;;
  c_tags <- lift (Sqlite.bind_param tags_str) ;;
  c_user <- lift (Sqlite.bind_param user_id) ;;
  w <- get_world ;;
  let rowid := (creations_seq w + 1)%Z in
  modify (add_row (Row rowid c_date c_prompt c_enhanced c_image c_model
                       None c_tags c_user)) ;;;
  ret rowid.

(** The body of [save_creation], once its parameters are bound. *)
Definition save_creation_body
    (prompt enhanced_prompt image_path model_path tags user_id : pyval)
  : Py Z :=
  try_except
    (sqlite3_connect ;;;
     tags_str <- lift (join_tags tags) ;;
     creation_date <- datetime_now_isoformat ;;
     creation_id <-
       insert_creation (VStr creation_date) prompt enhanced_prompt
         image_path model_path (VStr tags_str) user_id ;;
     ret creation_id)
    (λ e, ret (-1)%Z).

(** [save_creation(args...)]: Python binds the positional arguments to
    [prompt, enhanced_prompt, image_path, model_path, tags=None,
    user_id="default_user"] before the body runs, and raises [TypeError]
    at the call when they do not fit. *)
Definition save_creation (args : list pyval) : Py Z :=
  match args with
  | [prompt; enhanced_prompt; image_path; model_path] =>
      save_creation_body prompt enhanced_prompt image_path model_path
        VNone (VStr "default_user")
  | [prompt; enhanced_prompt; image_path; model_path; tags] =>
      save_creation_body prompt enhanced_prompt image_path model_path
        tags (VStr "default_user")
  | [prompt; enhanced_prompt; image_path; model_path; tags; user_id] =>
      save_creation_body prompt enhanced_prompt image_path model_path
        tags user_id
  | _ =>
      if decide (length args < 4)
      then raise (TypeError
             "MemoryManager.save_creation() missing required positional arguments")
      else raise (TypeError
             ("MemoryManager.save_creation() takes from 5 to 7 positional arguments but "
              +:+ pretty (S (length args)) +:+ " were given"))
  end.

Definition row_matches (search_term : string) (user_id : option string)
    (row : creation_row) : bool :=
  let pattern := "%" +:+ search_term +:+ "%" in
  (Sqlite.col_like (col_prompt row) pattern
   || Sqlite.col_like (col_enhanced_prompt row) pattern
   || Sqlite.col_like (col_tags row) pattern)
  && (if truthy_path user_id
      then match user_id with
           | Some u => Sqlite.col_eq (col_user_id row) u
           | None => true
           end
      else true).

Definition search_creations (search_term : string) (user_id : option string)
  : Py (list creation_row) :=
  try_except
    (sqlite3_connect ;;;
     w <- get_world ;;
     let results := List.filter (row_matches search_term user_id) (creations w) in
     ret results)
    (λ e, ret []).

End Methods.
End MemoryManager.

(** ** [CreativePipeline]: the orchestrator *)

Record CreativePipeline : Type := MkPipeline {
  text_to_image_app_id : string;
  image_to_3d_app_id : string;
  output_dir : string
}.

(** The local variables of [process] that outlive a stage.  [video_path]
    is assigned only inside the 3D stage: [None] here means that the name
    is not bound, [Some v] that it is bound to [v]. *)
Record Locals : Type := MkLocals {
  result : dict;
  image_data : pyval;
  image_path : option string;
  model_path : option string;
  video_path : option (option string)
}.

Module CreativePipeline.
Section Methods.
Context (env : Env) (self : CreativePipeline).

(** [self.stub.schema], [self.stub.call] *)
Definition stub_schema_ (app_id direction : string) : Py pyval :=
  λ w, (stub_schema env (stub_log w) app_id direction,
        log_stub (SchemaEvent app_id direction) w).

Definition stub_call_ (app_id : string) (request : dict) (user_id : string)
  : Py (option dict) :=
  λ w, (stub_call env (stub_log w) app_id request user_id,
        log_stub (CallEvent app_id request user_id) w).

(** [uuid.uuid4().hex] *)
Definition uuid4 : Py string :=
  λ w, (Return (uuid4_hex env (uuid_count w)), tick_uuid w).

(** [with open(path, 'wb') as f: f.write(data)]: [open] may raise, and
    then nothing is created; otherwise the file is created empty, [write]
    wants bytes, and may raise as well. *)
Definition write_file (path : string) (data : pyval) : Py unit :=
  w <- get_world ;;
  match open_fault env (files w) path with
  | Some e => raise e
  | None =>
      match data with
      | VBytes b =>
          match write_fault env (files w) path with
          | Some e => modify (set_file path "") ;;; raise e
          | None => modify (set_file path b)
          end
      | _ =>
          modify (set_file path "") ;;;
          raise (TypeError "a bytes-like object is required")
      end
  end.

#[global] Arguments write_file : simpl never.

(** [d[key].append(x)] for a list held in a dict *)
Definition dict_append (key x : string) (d : dict) : dict :=
  alter (λ v, match v with VList l => VList (l ++ [x]) | _ => v end) key d.

Definition is_running_in_docker : bool :=
  if dockerenv_exists env then true
  else match proc_1_cgroup env with
       | Some content =>
           (* the second [f.read()] is at end of file *)
           PyStr.contains "docker" content || PyStr.contains "containerd" ""
       | None => false
       end.

Definition _generate_image (prompt user_id : string) : Py (pyval * string) :=
  try_except
    (input_schema <- stub_schema_ (text_to_image_app_id self) "input" ;;
     let request : dict :=
       {[ "prompt" := VStr prompt;
          "negative_prompt" := VStr "blurry, distorted, low quality, draft";
          "width" := VInt 1024;
          "height" := VInt 1024;
          "guidance_scale" := VFloat 15 2;
          "num_inference_steps" := VInt 50 ]} in
     response <- stub_call_ (text_to_image_app_id self) request user_id ;;
     image_data <-
       match response with
       | Some r => ret (default VNone (r !! "result"))
       | None => raise (AttributeError "'NoneType' object has no attribute 'get'")
       end ;;
     if negb (truthy image_data)
     then raise (ValueError "No image data in response")
     else
       hex <- uuid4 ;;
       let filename := hex +:+ ".png" in
       let image_path := os_path_join (output_dir self) ["images"; filename] in
       write_file image_path image_data ;;;
       ret (image_data, image_path))
    (λ e, raise e).

Definition _generate_3d_model (image_path user_id : string) (image_data : pyval)
  : Py (pyval * string * option string) :=
  try_except
    (image_base64 <- lift (Base64.b64encode image_data) ;;
     let request : dict := {[ "input_image" := VStr image_base64 ]} in
     response <- stub_call_ (image_to_3d_app_id self) request user_id ;;
     match response with
     | None => raise (ValueError "Empty response from Image-to-3D service")
     | Some r =>
         if decide (r = ∅)
         then raise (ValueError "Empty response from Image-to-3D service")
         else
           let model_data := default VNone (r !! "generated_object") in
           if negb (truthy model_data)
           then raise (ValueError "No model data in response")
           else
             id <- uuid4 ;;
             let filename := id +:+ ".glb" in
             let model_path := os_path_join (output_dir self) ["models"; filename] in
             write_file model_path model_data ;;;
             (* [response['video_object']] *)
             match r !! "video_object" with
             | None => raise (KeyError "video_object")
             | Some v =>
                 if truthy v then
                   let video_data := default VNone (r !! "video_object") in
                   let video_path :=
                     os_path_join (output_dir self) ["videos"; id +:+ ".mp4"] in
                   write_file video_path video_data ;;;
                   ret (model_data, model_path, Some video_path)
                 else ret (model_data, model_path, None)
             end
     end)
    (λ e, raise e).

Definition _generate_3d_model2 (image_data : pyval) (user_id : string) : Py pyval :=
  try_except
    (encoded_image <- lift (Base64.b64encode image_data) ;;
     let request_data : dict := {[ "input_image" := VStr encoded_image ]} in
     response <- stub_call_ (image_to_3d_app_id self) request_data user_id ;;
     match response with
     | None => ret VNone
     | Some r =>
         if decide (r = ∅) then ret VNone
         else
           let model_data := default VNone (r !! "generated_object") in
           ret model_data
     end)
    (λ e, ret VNone).

(** Step 1 of [process] *)
Definition step_enhance (user_prompt : string) : Py string :=
  if is_running_in_docker
  then OllamaLlama.enhance_prompt env user_prompt
  else OllamaLlama.enhance_prompt_local env user_prompt.

(** Step 2 of [process]: lines 77 to 86 *)
Definition step_image (enhanced_prompt user_id : string) (result : dict)
  : Py Locals :=
  let image_data := VNone in
  try_except
    (r <- _generate_image enhanced_prompt user_id ;;
     let '(image_data, image_path) := r in
     let result := <["image_path" := VStr image_path]> result in
     let result := dict_append "stages_completed" "image_generation" result in
     ret (MkLocals result image_data (Some image_path) None None))
    (λ e,
       let result :=
         dict_append "errors" ("Image generation failed: " +:+ str_exn e) result in
       ret (MkLocals result image_data None None None)).

(** Stage 3 of [process]: lines 88 to 114 *)
Definition step_model (user_id : string) (l : Locals) : Py Locals :=
  if truthy_path (image_path l) then
    let image_path_ := default "" (image_path l) in
    try_except
      (r <- _generate_3d_model image_path_ user_id (image_data l) ;;
       let '(model_data, model_path, video_path) := r in
       let result := <["model_path" := VStr model_path]> (result l) in
       let result := dict_append "stages_completed" "model_generation" result in
       ret (MkLocals result (image_data l) (image_path l) (Some model_path)
                     (Some video_path)))
      (λ e,
         (* [video_path = None] ran before the call that raised *)
         let result :=
           dict_append "errors" ("3D model generation failed: " +:+ str_exn e)
             (result l) in
         model_data <- _generate_3d_model2 (image_data l) user_id ;;
         if truthy model_data then
           hex <- uuid4 ;;
           let model_path := os_path_join (output_dir self) ["models"; hex +:+ ".glb"] in
           write_file model_path model_data ;;;
           let result := <["model_path" := VStr model_path]> result in
           let result :=
             dict_append "stages_completed" "model_generation_fallback" result in
           ret (MkLocals result (image_data l) (image_path l) (Some model_path)
                         (Some None))
         else
           ret (MkLocals result (image_data l) (image_path l) None (Some None)))
  else
    let result :=
      dict_append "errors" "Skipped 3D model generation due to missing image"
        (result l) in
    ret (MkLocals result (image_data l) (image_path l) None (video_path l)).

(** Lines 63 to 114 of [process]: everything before "Step 4". *)
Definition process_stages (user_prompt user_id : string) : Py (string * Locals) :=
  let result : dict :=
    {[ "stages_completed" := VList [];
       "errors" := VList [];
       "image_path" := VNone;
       "model_path" := VNone ]} in
  enhanced_prompt <- step_enhance user_prompt ;;
  l <- step_image enhanced_prompt user_id result ;;
  l <- step_model user_id l ;;
  ret (enhanced_prompt, l).

(** Lines 116 to 155 of [process]: "Step 4" to the [return]. *)
Definition process_persist (user_prompt user_id enhanced_prompt : string)
    (l : Locals) : Py dict :=
  let tags := _extract_tags (set_iter env) enhanced_prompt in
  creation_id <-
    match video_path l with
    | None => raise (UnboundLocalError "video_path")
    | Some video_path =>
        if truthy_path video_path then
          MemoryManager.save_creation env
            [VStr user_prompt; VStr enhanced_prompt; opt_str (image_path l);
             opt_str (model_path l); opt_str video_path; VList tags; VStr user_id]
        else
          MemoryManager.save_creation env
            [VStr user_prompt; VStr enhanced_prompt; opt_str (image_path l);
             opt_str (model_path l); VList tags; VStr user_id]
    end ;;
  MemoryManager.save_to_short_term "last_prompt" (VStr user_prompt) ;;;
  MemoryManager.save_to_short_term "last_enhanced_prompt" (VStr enhanced_prompt) ;;;
  MemoryManager.save_to_short_term "last_image_path" (opt_str (image_path l)) ;;;
  MemoryManager.save_to_short_term "last_model_path" (opt_str (model_path l)) ;;;
  let result : dict :=
    {[ "creation_id" := VInt creation_id;
       "original_prompt" := VStr user_prompt;
       "enhanced_prompt" := VStr enhanced_prompt;
       "image_path" := opt_str (image_path l);
       "model_path" := opt_str (model_path l);
       "tags" := VList tags ]} in
  ret result.

Definition process (user_prompt user_id : string) : Py dict :=
  try_except
    (r <- process_stages user_prompt user_id ;;
     let '(enhanced_prompt, l) := r in
     process_persist user_prompt user_id enhanced_prompt l)
    (λ e,
       ret ({[ "error" := VStr (str_exn e);
               "stage" := VStr "pipeline_process";
               "original_prompt" := VStr user_prompt ]} : dict)).

End Methods.
End CreativePipeline.

(** ** Notions the properties are stated with *)

(** [term] occurs in the column, up to ASCII case. *)
Definition ci_occurs (term : string) (column : option string) : Prop :=
  ∃ pre mid post : string,
    column = Some (pre +:+ mid +:+ post) ∧ PyStr.lower mid = PyStr.lower term.

(** [term] occurs in the column literally. *)
Definition occurs (term : string) (column : option string) : Prop :=
  ∃ pre post : string, column = Some (pre +:+ term +:+ post).

(** The text holds no NUL character. *)
Definition nul_free (s : string) : Prop := Sqlite.c_str s = s.

(** The term holds none of the wildcard characters of [LIKE]. *)
Definition wildcard_free (term : string) : Prop :=
  Forall (λ c, c ≠ "%"%char ∧ c ≠ "_"%char) (PyStr.chars term).

(** [term] occurs, up to ASCII case, in one of the three searched columns
    of the row, before the column's first NUL if it has one. *)
Definition seen_in (term : string) (row : creation_row) : Prop :=
  ci_occurs term (Sqlite.c_str <$> col_prompt row)
  ∨ ci_occurs term (Sqlite.c_str <$> col_enhanced_prompt row)
  ∨ ci_occurs term (Sqlite.c_str <$> col_tags row).

(** The [WHERE] clause of [search_creations] holds of the row. *)
Definition where_holds (term : string) (row : creation_row) : Prop :=
  Sqlite.col_like (col_prompt row) ("%" +:+ term +:+ "%") = true
  ∨ Sqlite.col_like (col_enhanced_prompt row) ("%" +:+ term +:+ "%") = true
  ∨ Sqlite.col_like (col_tags row) ("%" +:+ term +:+ "%") = true.

(** The row passes the optional filter on the user identifier. *)
Definition passes_user_filter (user_id : option string) (row : creation_row) : Prop :=
  match user_id with
  | None => True
  | Some u => u = "" ∨ col_user_id row = Some u
  end.

(** The capability a stub event addresses. *)
Definition event_app (ev : stub_event) : string :=
  match ev with
  | SchemaEvent app_id _ => app_id
  | CallEvent app_id _ _ => app_id
  end.

(** Two worlds with the same ledger and the same session cache. *)
Definition same_memory (w w' : World) : Prop :=
  creations w' = creations w
  ∧ creations_seq w' = creations_seq w
  ∧ short_term_memory w' = short_term_memory w.

(** A computation respects [R] when the world it ends in, returning or
    raising, is [R]-related to the world it started in. *)
Definition respects (R : World → World → Prop) {A} (m : Py A) : Prop :=
  ∀ w, R w (m w).2.

(** The stub log grew by events that all satisfy [P]. *)
Definition log_grows (P : stub_event → Prop) (w w' : World) : Prop :=
  ∃ evs, stub_log w' = (stub_log w ++ evs)%list ∧ Forall P evs.

(** Whenever the computation returns, the value it returns satisfies [Q]. *)
Definition ensures {A} (m : Py A) (Q : A → Prop) : Prop :=
  ∀ w a w', m w = (Return a, w') → Q a.

(** [open(path, 'wb')] and the write that follows both succeed in [w]. *)
Definition can_write (env : Env) (w : World) (path : string) : Prop :=
  open_fault env (files w) path = None ∧ write_fault env (files w) path = None.

(** The six-key dictionary [process] returns after "Step 4". *)
Definition success_dict (creation_id : Z) (user_prompt enhanced : string)
    (image model : pyval) (tags : list string) : dict :=
  {[ "creation_id" := VInt creation_id;
     "original_prompt" := VStr user_prompt;
     "enhanced_prompt" := VStr enhanced;
     "image_path" := image;
     "model_path" := model;
     "tags" := VList tags ]}.

(** The three-key dictionary [process] returns from its outer handler. *)
Definition terminal_error (message user_prompt : string) : dict :=
  {[ "error" := VStr message;
     "stage" := VStr "pipeline_process";
     "original_prompt" := VStr user_prompt ]}.

(** The row the six-argument call of [process] inserts. *)
Definition inserted_row (env : Env) (w : World)
    (prompt enhanced_prompt : string) (image_path model_path : option string)
    (tags : list string) (user_id : string) : creation_row :=
  Row (creations_seq w + 1)
      (Some (now_isoformat env (clock w)))
      (Some prompt) (Some enhanced_prompt) image_path model_path None
      (Some (PyStr.join "," tags)) (Some user_id).

(** ** Example surroundings *)

Definition is_call (ev : stub_event) : bool :=
  match ev with CallEvent _ _ _ => true | SchemaEvent _ _ => false end.

(** The stub answers its n-th call with the n-th reply of the script; the
    text backend always gives [llm]; every use of the database meets
    [fault]; files can always be written. *)
Definition scripted_env (llm : outcome http_response)
    (replies : list (outcome (option dict))) (fault : option exn) : Env :=
  MkEnv (λ _ _ _, Return VNone)
        (λ log _ _ _,
           nth (length (List.filter is_call log)) replies
               (Raise (Exn "RemoteServiceError" "no reply")))
        (λ _ _, llm)
        (λ n, "uuid" +:+ pretty n)
        (λ n, n)
        (λ n, "2025-01-01T00:00:0" +:+ pretty n)
        (λ _, fault)
        (λ _ _, None)
        (λ _ _, None)
        insertion_order
        false None.

(** The same surroundings, except that [open] fails on the paths [bad]
    names. *)
Definition with_open_fault (env : Env) (bad : string → option exn) : Env :=
  MkEnv (stub_schema env) (stub_call env) (http_post env) (uuid4_hex env)
        (rng_tape env) (now_isoformat env) (sqlite_fault env)
        (λ _ path, bad path) (write_fault env)
        (set_iter env) (dockerenv_exists env) (proc_1_cgroup env).

Definition disk_full : exn := Exn "OSError" "No space left on device".


Definition llm_says (reply : string) : outcome http_response :=
  Return (HttpResponse 200 reply (Return {[ "response" := reply ]})).

Definition demo_pipeline : CreativePipeline :=
  MkPipeline "text-to-image" "image-to-3d" "outputs".

Definition image_reply : outcome (option dict) :=
  Return (Some {[ "result" := VBytes "PNG" ]}).

Definition unreachable : exn := Exn "ConnectionError" "connection refused".
Definition remote_error : exn := Exn "RemoteServiceError" "service failed".
Definition database_locked : exn :=
  Exn "sqlite3.OperationalError" "database is locked".

Definition quiet_env : Env := scripted_env (llm_says "A Majestic Dragon") [] None.

(** A ledger with one record about a castle. *)
Definition castle_row : creation_row :=
  Row 1 (Some "2025-01-01T00:00:00") (Some "a castle")
      (Some "A Castle at Dusk") (Some "outputs/images/uuid0.png") None None
      (Some "castle,dusk,dragon") (Some "super-user").

Definition castle_world : World := add_row castle_row fresh_world.

(** A ledger with one record whose tags hold a NUL character before the
    word dragon. *)
Definition nul_row : creation_row :=
  Row 1 (Some "2025-01-01T00:00:00") (Some "a lizard")
      (Some "a lizard") None None None
      (Some (String "x" (String Ascii.zero "dragon"))) (Some "super-user").

Definition nul_world : World := add_row nul_row fresh_world.

(** * Properties *)

(** ** Strings *)

Section StringFacts.
Import PyStr.

Lemma append_cons (c : ascii) (a b : string) :
  String c a +:+ b = String c (a +:+ b).
Proof. reflexivity. Qed.

Lemma append_nil_l (s : string) : "" +:+ s = s.
Proof. reflexivity. Qed.

Lemma append_nil_r (s : string) : s +:+ "" = s.
Proof.
  induction s as [|c s IH]; [reflexivity|]. now rewrite append_cons, IH.
Qed.

Lemma append_assoc (a b c : string) : (a +:+ b) +:+ c = a +:+ (b +:+ c).
Proof.
  induction a as [|x a IH]; [reflexivity|]. now rewrite !append_cons, IH.
Qed.

Lemma snoc_append (cur : string) (c : ascii) (r : string) :
  snoc cur c +:+ r = cur +:+ String c r.
Proof. unfold snoc. now rewrite append_assoc. Qed.

Lemma chars_append (a b : string) : chars (a +:+ b) = (chars a ++ chars b)%list.
Proof.
  induction a as [|x a IH]; [reflexivity|].
  rewrite append_cons. simpl. now rewrite <- IH.
Qed.

Lemma chars_snoc (cur : string) (c : ascii) : chars (snoc cur c) = (chars cur ++ [c])%list.
Proof. unfold snoc. now rewrite chars_append. Qed.

Lemma length_chars (s : string) : length (chars s) = String.length s.
Proof. induction s as [|c s IH]; simpl; [reflexivity | now rewrite IH]. Qed.

Lemma lower_char_idem (c : ascii) : lower_char (lower_char c) = lower_char c.
Proof. destruct c as [[] [] [] [] [] [] [] []]; reflexivity. Qed.

Lemma lower_fixed (s : string) :
  Forall (λ c, lower_char c = c) (chars s) → lower s = s.
Proof.
  induction s as [|c s IH]; simpl; intros H; [reflexivity|].
  inversion H as [|? ? Hc Hs]; subst. now rewrite Hc, IH.
Qed.

(** Whatever holds of the pending word and of every non-blank character
    still to be read holds of every word that [split] yields. *)
Lemma split_go_Forall (P : ascii → Prop) (s : string) :
  ∀ cur w,
    Forall P (chars cur) →
    Forall (λ c, isspace c = false → P c) (chars s) →
    w ∈ split_go cur s → Forall P (chars w).
Proof.
  induction s as [|c s IH]; simpl; intros cur w Hcur Hs Hw.
  - destruct (String.eqb cur ""); [by apply elem_of_nil in Hw|].
    apply list_elem_of_singleton in Hw. now subst.
  - inversion Hs as [|? ? Hc Hs']; subst.
    destruct (isspace c) eqn:Hsp.
    + destruct (String.eqb cur "").
      * apply (IH "" w); [constructor | assumption | assumption].
      * apply elem_of_cons in Hw as [-> | Hw]; [assumption|].
        apply (IH "" w); [constructor | assumption | assumption].
    + apply (IH (snoc cur c) w); [|assumption|assumption].
      rewrite chars_snoc. apply Forall_app. split; [assumption|].
      constructor; [auto | constructor].
Qed.

(** The text [_extract_tags] splits: lower-cased, commas blanked. *)
Lemma normalised_chars (prompt : string) :
  Forall (λ c, c ≠ ","%char ∧ lower_char c = c)
         (chars (replace "," " " (lower prompt))).
Proof.
  induction prompt as [|c s IH]; simpl; [constructor|].
  constructor; [|exact IH].
  destruct (Ascii.eqb (lower_char c) ",") eqn:E.
  - split; [discriminate | reflexivity].
  - split; [|apply lower_char_idem].
    intros Hc. rewrite Hc in E. discriminate E.
Qed.

(** A piece without separator is read into the pending word. *)
Lemma split_sep_go_piece (sep : ascii) (w : string) :
  Forall (λ c, c ≠ sep) (chars w) →
  ∀ cur rest,
    split_sep_go sep cur (w +:+ rest) = split_sep_go sep (cur +:+ w) rest.
Proof.
  induction w as [|c w IH]; intros H cur rest.
  - now rewrite append_nil_r.
  - inversion H as [|? ? Hc Hw]; subst.
    rewrite append_cons. cbn [split_sep_go].
    destruct (Ascii.eqb c sep) eqn:E; [apply Ascii.eqb_eq in E; contradiction|].
    rewrite IH by assumption. now rewrite snoc_append.
Qed.

(** [sep.join(l).split(sep)] gives [l] back, for a non-empty [l] whose
    items are free of [sep]. *)
Lemma split_sep_join (sep : ascii) (l : list string) :
  Forall (λ t, Forall (λ c, c ≠ sep) (chars t)) l →
  ∀ cur x r, l = x :: r →
    split_sep_go sep cur (join (String sep "") l) = (cur +:+ x) :: r.
Proof.
  induction l as [|y l IH]; intros H cur x r Hl; [discriminate|].
  injection Hl as -> ->. inversion H as [|? ? Hx Hr]; subst.
  destruct r as [|z r].
  - cbn [join]. rewrite <- (append_nil_r x) at 1.
    rewrite split_sep_go_piece by assumption. reflexivity.
  - change (join (String sep "") (x :: z :: r))
      with (x +:+ String sep "" +:+ join (String sep "") (z :: r)).
    rewrite split_sep_go_piece by assumption.
    rewrite append_cons, append_nil_l. cbn [split_sep_go].
    rewrite Ascii.eqb_refl.
    now rewrite (IH Hr "" z r eq_refl), append_nil_l.
Qed.

End StringFacts.

(** ** Tags *)

Section Tags.
Import PyStr.

Lemma insertion_order_ok : set_order_ok insertion_order.
Proof.
  intros l. split; [apply NoDup_remove_dups | apply elem_of_remove_dups].
Qed.

Context (set_iter : set_order) (Hok : set_order_ok set_iter).

Lemma extract_tags_elem (prompt t : string) :
  t ∈ _extract_tags set_iter prompt →
  keep_word t ∧ t ∈ split (replace "," " " (lower prompt)).
Proof.
  unfold _extract_tags. intros H.
  apply subseteq_take in H.
  apply (proj1 (proj2 (Hok _) _)) in H. now apply list_elem_of_filter in H.
Qed.

Lemma extract_tags_NoDup (prompt : string) : NoDup (_extract_tags set_iter prompt).
Proof.
  unfold _extract_tags.
  eapply sublist_NoDup; [|apply sublist_take]. apply Hok.
Qed.

Lemma extract_tags_chars (prompt t : string) :
  t ∈ _extract_tags set_iter prompt →
  Forall (λ c, isspace c = false ∧ c ≠ ","%char ∧ lower_char c = c) (chars t).
Proof.
  intros H. apply extract_tags_elem in H as [_ H].
  apply (split_go_Forall _ (replace "," " " (lower prompt)) "" t);
    [constructor | | exact H].
  eapply Forall_impl; [apply normalised_chars|].
  simpl. intros c [? ?] ?. auto.
Qed.

(** When at most ten distinct words survive, the cut keeps them all. *)
Lemma extract_tags_small (prompt : string) (expected : list string) :
  NoDup expected → (length expected ≤ 10)%nat →
  (∀ x, x ∈ filter keep_word (split (replace "," " " (lower prompt)))
        ↔ x ∈ expected) →
  _extract_tags set_iter prompt ≡ₚ expected.
Proof.
  intros Hnd Hlen Hiff. unfold _extract_tags.
  assert (Hp : set_iter (filter keep_word
                (split (replace "," " " (lower prompt)))) ≡ₚ expected).
  { apply NoDup_Permutation; [apply Hok | assumption |].
    intros x. etransitivity; [apply Hok | apply Hiff]. }
  rewrite firstn_all2; [assumption|].
  rewrite (Permutation_length Hp). lia.
Qed.

End Tags.

(** C7.  For every iteration order a Python set can have:
    [_extract_tags] of "A Majestic Dragon, Glowing Scales, Golden Hour"
    contains majestic, dragon, glowing, scales, golden and hour (it is a
    permutation of these six); and for every prompt the tags are longer
    than 3 characters, are no stopword, are pairwise distinct and number at
    most 10. *)
Theorem extract_tags_spec (set_iter : set_order) (Hok : set_order_ok set_iter) :
  ((∀ t, t ∈ dragon_tags → t ∈ _extract_tags set_iter dragon_prompt)
   ∧ _extract_tags set_iter dragon_prompt ≡ₚ dragon_tags)
  ∧ ∀ prompt : string,
      (∀ t, t ∈ _extract_tags set_iter prompt →
            3 < String.length t ∧ t ∉ stopwords)
      ∧ NoDup (_extract_tags set_iter prompt)
      ∧ (length (_extract_tags set_iter prompt) ≤ 10)%nat.
Proof.
  assert (Hdragon : _extract_tags set_iter dragon_prompt ≡ₚ dragon_tags).
  { apply extract_tags_small; [assumption | | vm_compute; lia |].
    - apply (bool_decide_unpack (NoDup dragon_tags)). vm_compute. exact I.
    - assert (E : filter keep_word
                    (PyStr.split (PyStr.replace "," " " (PyStr.lower dragon_prompt)))
                  = dragon_tags) by (vm_compute; reflexivity).
      intros x. now rewrite E. }
  split.
  - split; [|exact Hdragon]. intros t Ht. now rewrite Hdragon.
  - intros prompt. split; [|split].
    + intros t Ht. apply (extract_tags_elem _ Hok) in Ht as [Hk _]. exact Hk.
    + now apply extract_tags_NoDup.
    + unfold _extract_tags. rewrite length_take. lia.
Qed.

Lemma extract_tags_spec_witness :
  ((∀ t, t ∈ dragon_tags → t ∈ _extract_tags insertion_order dragon_prompt)
   ∧ _extract_tags insertion_order dragon_prompt ≡ₚ dragon_tags)
  ∧ ∀ prompt : string,
      (∀ t, t ∈ _extract_tags insertion_order prompt →
            3 < String.length t ∧ t ∉ stopwords)
      ∧ NoDup (_extract_tags insertion_order prompt)
      ∧ (length (_extract_tags insertion_order prompt) ≤ 10)%nat.
Proof. exact (extract_tags_spec insertion_order insertion_order_ok). Defined.

(** ** The local fallback enhancement *)

Section Fallback.
Context (env : Env).
Import OllamaLlama.

(** [random.choice] of a non-empty list returns one of its items and
    takes one draw. *)
Lemma random_choice_elem (seq : list string) (w : World) :
  seq ≠ [] →
  ∃ x, x ∈ seq ∧ random_choice env seq w = (Return x, tick_rng w).
Proof.
  intros Hne. unfold random_choice.
  assert (Hlt : rng_tape env (rng_pos w) mod length seq < length seq).
  { apply Nat.mod_upper_bound. destruct seq; [contradiction | simpl; lia]. }
  apply lookup_lt_is_Some in Hlt as [x Hx].
  exists x. rewrite Hx. split; [|reflexivity].
  eapply list_elem_of_lookup_2; exact Hx.
Qed.

End Fallback.

(** C8.  For every basic prompt, every state of the random generator and
    every world, [_create_enhanced_prompt_fallback] returns
    "{prompt}, {style}, {lighting}, {detail}, masterfully crafted, 8k resolution"
    with the style one of the four art styles, the lighting one of the
    four lighting descriptors and the detail one of the four detail
    descriptors. *)
Theorem fallback_enhancement_shape (env : Env) (basic_prompt : string) (w : World) :
  ∃ style light detail : string,
    style ∈ OllamaLlama.art_styles
    ∧ light ∈ OllamaLlama.lighting
    ∧ detail ∈ OllamaLlama.details
    ∧ length OllamaLlama.art_styles = 4
    ∧ length OllamaLlama.lighting = 4
    ∧ length OllamaLlama.details = 4
    ∧ fst (OllamaLlama._create_enhanced_prompt_fallback env basic_prompt w)
      = Return (basic_prompt +:+ ", " +:+ style +:+ ", " +:+ light +:+ ", "
                +:+ detail +:+ ", masterfully crafted, 8k resolution").
Proof.
  destruct (random_choice_elem env OllamaLlama.art_styles w) as (style & Hs & Es);
    [discriminate|].
  destruct (random_choice_elem env OllamaLlama.lighting (tick_rng w))
    as (light & Hl & El); [discriminate|].
  destruct (random_choice_elem env OllamaLlama.details (tick_rng (tick_rng w)))
    as (detail & Hd & Ed); [discriminate|].
  exists style, light, detail.
  repeat (split; [assumption || reflexivity|]).
  unfold OllamaLlama._create_enhanced_prompt_fallback, bind.
  rewrite Es, El, Ed. reflexivity.
Qed.

(** ** Searching the ledger *)

Section Like.
Import PyStr Sqlite.

Lemma pattern_compare_percent (p s : string) :
  pattern_compare (String "%" p) s
  = pattern_compare p s
    || match s with
       | EmptyString => false
       | String _ s' => pattern_compare (String "%" p) s'
       end.
Proof. destruct s; reflexivity. Qed.

(** [%] may swallow any prefix. *)
Lemma pattern_compare_skip (p s1 s2 : string) :
  pattern_compare p s2 = true → pattern_compare (String "%" p) (s1 +:+ s2) = true.
Proof.
  intros H. induction s1 as [|c s1 IH].
  - rewrite append_nil_l, pattern_compare_percent, H. reflexivity.
  - rewrite append_cons, pattern_compare_percent, IH. apply orb_true_r.
Qed.

Lemma pattern_compare_percent_all (s : string) : pattern_compare "%" s = true.
Proof.
  rewrite <- (append_nil_r s). apply pattern_compare_skip. reflexivity.
Qed.

(** A pattern matches the text it spells, up to case, even when it holds
    wildcard characters: each wildcard matches the character it stands
    at. *)
Lemma pattern_compare_spelled (t : string) :
  ∀ m p s,
    lower m = lower t → pattern_compare p s = true →
    pattern_compare (t +:+ p) (m +:+ s) = true.
Proof.
  induction t as [|c t IH]; intros m p s Hm Hp.
  - destruct m; [exact Hp | discriminate].
  - destruct m as [|d m]; [discriminate|].
    cbn [lower] in Hm. injection Hm as Hd Hm.
    specialize (IH m p s Hm Hp).
    rewrite !append_cons.
    destruct (Ascii.eqb c "%") eqn:E.
    + apply Ascii.eqb_eq in E. subst c.
      rewrite pattern_compare_percent. apply orb_true_iff. right.
      rewrite pattern_compare_percent, IH. reflexivity.
    + cbn [pattern_compare]. rewrite E, IH, Hd, Ascii.eqb_refl.
      now rewrite orb_true_r.
Qed.

(** What [%] swallowed is a prefix of the text. *)
Lemma pattern_compare_percent_inv (p s : string) :
  pattern_compare (String "%" p) s = true →
  ∃ pre rest, s = pre +:+ rest ∧ pattern_compare p rest = true.
Proof.
  induction s as [|c s IH]; rewrite pattern_compare_percent; intros H.
  - rewrite orb_false_r in H. now exists "", "".
  - apply orb_true_iff in H as [H | H].
    + now exists "", (String c s).
    + destruct (IH H) as (pre & rest & -> & Hr).
      now exists (String c pre), rest.
Qed.

(** A pattern that starts with wildcard-free characters spells, up to
    case, the start of every text it matches. *)
Lemma pattern_compare_literal_inv (t : string) :
  Forall (λ c, c ≠ "%"%char ∧ c ≠ "_"%char) (chars t) →
  ∀ p s,
    pattern_compare (t +:+ p) s = true →
    ∃ mid rest,
      s = mid +:+ rest ∧ lower mid = lower t ∧ pattern_compare p rest = true.
Proof.
  induction t as [|c t IH]; intros Hfree p s H.
  - now exists "", s.
  - inversion Hfree as [|? ? [Hc1 Hc2] Hfree']; subst.
    rewrite append_cons in H. cbn [pattern_compare] in H.
    apply Ascii.eqb_neq in Hc1, Hc2. rewrite Hc1, Hc2 in H.
    destruct s as [|d s]; [discriminate H|].
    cbn [orb] in H. apply andb_true_iff in H as [Hd H].
    apply Ascii.eqb_eq in Hd.
    destruct (IH Hfree' p s H) as (mid & rest & -> & Hmid & Hrest).
    exists (String d mid), rest. repeat split; [|exact Hrest].
    cbn [lower]. now rewrite Hd, Hmid.
Qed.

Lemma c_str_idem (s : string) : c_str (c_str s) = c_str s.
Proof.
  induction s as [|c s IH]; [reflexivity|]. cbn [c_str].
  destruct (Ascii.eqb c Ascii.zero) eqn:E; [reflexivity|].
  cbn [c_str]. now rewrite E, IH.
Qed.

(** A text is its C string followed by what SQLite does not look at. *)
Lemma c_str_prefix (s : string) : ∃ rest, s = c_str s +:+ rest.
Proof.
  induction s as [|c s [rest IH]]; [now exists ""|]. cbn [c_str].
  destruct (Ascii.eqb c Ascii.zero).
  - now exists (String c s).
  - exists rest. now rewrite append_cons, <- IH.
Qed.

Lemma c_str_append (a b : string) :
  c_str a = a → c_str (a +:+ b) = a +:+ c_str b.
Proof.
  induction a as [|c a IH]; [reflexivity|]. cbn [c_str].
  rewrite append_cons. cbn [c_str].
  destruct (Ascii.eqb c Ascii.zero); [discriminate|].
  intros H. injection H as H. now rewrite IH.
Qed.

(** The pattern [search_creations] builds from a term without NUL. *)
Lemma c_str_search_pattern (term : string) :
  c_str term = term →
  c_str ("%" +:+ term +:+ "%") = String "%" (term +:+ "%").
Proof.
  intros H. rewrite append_cons, append_nil_l. cbn [c_str].
  replace (Ascii.eqb "%" Ascii.zero) with false by reflexivity.
  now rewrite (c_str_append term "%" H).
Qed.

End Like.

Lemma occurs_ci_occurs (term : string) (column : option string) :
  occurs term column → ci_occurs term column.
Proof. intros (pre & post & ->). now exists pre, term, post. Qed.

(** A column free of NUL is seen whole. *)
Lemma c_str_column (column : option string) (s : string) :
  column = Some s → nul_free s → Sqlite.c_str <$> column = column.
Proof. intros -> H. cbn. now rewrite H. Qed.

Lemma ci_occurs_col_like (term : string) (column : option string) :
  nul_free term →
  ci_occurs term (Sqlite.c_str <$> column) →
  Sqlite.col_like column ("%" +:+ term +:+ "%") = true.
Proof.
  intros Hterm (pre & mid & post & Hcol & Hmid).
  destruct column as [s|]; [|discriminate Hcol].
  cbn in Hcol. injection Hcol as Hcol.
  cbn [Sqlite.col_like]. unfold Sqlite.like.
  rewrite (c_str_search_pattern term Hterm), Hcol.
  apply pattern_compare_skip, pattern_compare_spelled;
    [exact Hmid | apply pattern_compare_percent_all].
Qed.

Lemma col_like_ci_occurs (term : string) (column : option string) :
  nul_free term → wildcard_free term →
  Sqlite.col_like column ("%" +:+ term +:+ "%") = true →
  ci_occurs term (Sqlite.c_str <$> column).
Proof.
  intros Hterm Hfree H.
  destruct column as [s|]; [|discriminate H].
  cbn [Sqlite.col_like] in H. unfold Sqlite.like in H.
  rewrite (c_str_search_pattern term Hterm) in H.
  apply pattern_compare_percent_inv in H as (pre & rest & Hs & H).
  apply (pattern_compare_literal_inv term Hfree) in H
    as (mid & post & -> & Hmid & _).
  exists pre, mid, post. cbn. now rewrite Hs.
Qed.

(** What SQLite sees of a column occurs in the column. *)
Lemma ci_occurs_c_str (term : string) (column : option string) :
  ci_occurs term (Sqlite.c_str <$> column) → ci_occurs term column.
Proof.
  intros (pre & mid & post & Hcol & Hmid).
  destruct column as [s|]; [|discriminate Hcol].
  cbn in Hcol. injection Hcol as Hcol.
  destruct (c_str_prefix s) as [rest Hs].
  exists pre, mid, (post +:+ rest). split; [|exact Hmid].
  rewrite Hs at 1. rewrite Hcol. now rewrite !append_assoc.
Qed.

Lemma passes_user_filter_sound (user_id : option string) (row : creation_row) :
  passes_user_filter user_id row →
  (if truthy_path user_id
   then match user_id with
        | Some u => Sqlite.col_eq (col_user_id row) u
        | None => true
        end
   else true) = true.
Proof.
  destruct user_id as [u|]; [|reflexivity].
  intros [-> | Hu]; [reflexivity|].
  unfold truthy_path; cbn. destruct (String.eqb u ""); [reflexivity|].
  cbn. rewrite Hu. cbn. apply String.eqb_refl.
Qed.

Lemma passes_user_filter_complete (user_id : option string) (row : creation_row) :
  (if truthy_path user_id
   then match user_id with
        | Some u => Sqlite.col_eq (col_user_id row) u
        | None => true
        end
   else true) = true →
  passes_user_filter user_id row.
Proof.
  destruct user_id as [u|]; [|exact (λ _, I)].
  unfold truthy_path; cbn. destruct (String.eqb u "") eqn:E; cbn.
  - intros _. left. now apply String.eqb_eq.
  - destruct (col_user_id row) as [v|]; cbn; [|discriminate].
    intros H. right. apply String.eqb_eq in H. now subst.
Qed.

(** The rows [search_creations] keeps are those of which the [WHERE]
    clause holds and that pass the user filter. *)
Lemma row_matches_spec (term : string) (user_id : option string)
    (row : creation_row) :
  MemoryManager.row_matches term user_id row = true
  ↔ where_holds term row ∧ passes_user_filter user_id row.
Proof.
  unfold MemoryManager.row_matches, where_holds.
  rewrite andb_true_iff, !orb_true_iff. split.
  - intros [H Hu]. split; [tauto | now apply passes_user_filter_complete].
  - intros [H Hu]. split; [tauto | now apply passes_user_filter_sound].
Qed.

(** C9, as the code has it.  With the database answering and a term that
    holds no NUL, [search_creations] returns the stored records of which
    the [LIKE] clause holds and that pass the optional user filter (no
    filter, an empty one, or the record's own user identifier).  A record
    that passes the filter is returned as soon as the term occurs, up to
    ASCII case, in what SQLite reads of its prompt, its enhanced prompt or
    its tags (the column up to its first NUL); a term found in the tags
    alone brings the record back.  When the term holds neither [%] nor
    [_], nothing else is returned: every returned record holds the term,
    up to case, in one of the three columns. *)
Theorem search_creations_finds (env : Env) (w : World) (term : string)
    (user_id : option string) :
  sqlite_fault env (db_ops w) = None →
  nul_free term →
  ∃ results,
    (MemoryManager.search_creations env term user_id w).1 = Return results
    ∧ (∀ row, row ∈ results ↔
         row ∈ creations w ∧ where_holds term row
         ∧ passes_user_filter user_id row)
    ∧ (∀ row, row ∈ creations w → passes_user_filter user_id row →
         seen_in term row → row ∈ results)
    ∧ (wildcard_free term →
       ∀ row, row ∈ results →
         seen_in term row
         ∧ (ci_occurs term (col_prompt row)
            ∨ ci_occurs term (col_enhanced_prompt row)
            ∨ ci_occurs term (col_tags row))).
Proof.
  intros Hdb Hterm.
  unfold MemoryManager.search_creations, try_except, bind,
    MemoryManager.sqlite3_connect.
  rewrite Hdb. cbn.
  eexists. split; [reflexivity|].
  assert (Hiff : ∀ row,
    row ∈ List.filter (MemoryManager.row_matches term user_id) (creations w)
    ↔ row ∈ creations w ∧ where_holds term row ∧ passes_user_filter user_id row).
  { intros row. rewrite list_elem_of_In, filter_In, <- list_elem_of_In.
    now rewrite row_matches_spec. }
  split; [exact Hiff|]. split.
  - intros row Hrow Huser Hseen. apply Hiff. split; [exact Hrow|].
    split; [|exact Huser].
    destruct Hseen as [H | [H | H]];
      apply (ci_occurs_col_like term _ Hterm) in H; unfold where_holds; tauto.
  - intros Hfree row Hrow. apply Hiff in Hrow as (_ & Hwhere & _).
    assert (Hseen : seen_in term row).
    { destruct Hwhere as [H | [H | H]];
        apply (col_like_ci_occurs term _ Hterm Hfree) in H; unfold seen_in; tauto. }
    split; [exact Hseen|].
    destruct Hseen as [H | [H | H]]; apply ci_occurs_c_str in H; tauto.
Qed.

(** ** What the stages leave alone *)

Section Respects.
Context (R : World → World → Prop) `{!Reflexive R} `{!Transitive R}.

Lemma respects_ret {A} (a : A) : respects R (ret a).
Proof. intros w. reflexivity. Qed.

Lemma respects_raise {A} (e : exn) : respects R (@raise A e).
Proof. intros w. reflexivity. Qed.

Lemma respects_lift {A} (o : outcome A) : respects R (lift o).
Proof. intros w. reflexivity. Qed.

Lemma respects_get_world : respects R get_world.
Proof. intros w. reflexivity. Qed.

Lemma respects_modify (f : World → World) :
  (∀ w, R w (f w)) → respects R (modify f).
Proof. intros H w. apply H. Qed.

Lemma respects_bind {A B} (m : Py A) (k : A → Py B) :
  respects R m → (∀ a, respects R (k a)) → respects R (bind m k).
Proof.
  intros Hm Hk w. unfold bind. specialize (Hm w).
  destruct (m w) as [[a|e] w1]; cbn in *; [|exact Hm].
  etransitivity; [exact Hm | apply Hk].
Qed.

Lemma respects_try_except {A} (m : Py A) (h : exn → Py A) :
  respects R m → (∀ e, respects R (h e)) → respects R (try_except m h).
Proof.
  intros Hm Hh w. unfold try_except. specialize (Hm w).
  destruct (m w) as [[a|e] w1]; cbn in *; [exact Hm|].
  etransitivity; [exact Hm | apply Hh].
Qed.

End Respects.

#[global] Instance same_memory_refl : Reflexive same_memory.
Proof. intros w. repeat split. Qed.

#[global] Instance same_memory_trans : Transitive same_memory.
Proof.
  intros w1 w2 w3 (H1 & H2 & H3) (H4 & H5 & H6).
  repeat split; congruence.
Qed.

#[global] Instance log_grows_refl P : Reflexive (log_grows P).
Proof. intros w. exists []. split; [now rewrite app_nil_r | constructor]. Qed.

#[global] Instance log_grows_trans P : Transitive (log_grows P).
Proof.
  intros w1 w2 w3 (e1 & H1 & F1) (e2 & H2 & F2).
  exists (e1 ++ e2)%list. split; [|now apply Forall_app].
  now rewrite H2, H1, app_assoc.
Qed.

Lemma log_grows_same (P : stub_event → Prop) (w w' : World) :
  stub_log w' = stub_log w → log_grows P w w'.
Proof. intros H. exists []. split; [now rewrite app_nil_r | constructor]. Qed.

Lemma log_grows_one (P : stub_event → Prop) (ev : stub_event) (w : World) :
  P ev → log_grows P w (log_stub ev w).
Proof. intros H. exists [ev]. split; [reflexivity | now repeat constructor]. Qed.

(** Splits a [respects] goal along the structure of the program; the
    shape of the program picks the rule. *)
Ltac respects_step :=
  cbv beta zeta;
  lazymatch goal with
  | |- respects _ (ret _) => refine (respects_ret _ _)
  | |- respects _ (raise _) => refine (respects_raise _ _)
  | |- respects _ (lift _) => refine (respects_lift _ _)
  | |- respects _ get_world => refine (respects_get_world _)
  | |- respects _ (bind _ _) => refine (respects_bind _ _ _ _ _); [|intros ?]
  | |- respects _ (try_except _ _) =>
      refine (respects_try_except _ _ _ _ _); [|intros ?]
  | |- respects _ (if ?b then _ else _) => destruct b
  | |- respects _ (match ?x with _ => _ end) => destruct x
  end.

Section Frames.
Context (env : Env) (self : CreativePipeline).
Import OllamaLlama MemoryManager CreativePipeline.

(** *** The ledger and the session cache *)

Lemma requests_post_memory url payload :
  respects same_memory (requests_post env url payload).
Proof. intros w. repeat split. Qed.

Lemma random_choice_memory seq : respects same_memory (random_choice env seq).
Proof.
  intros w. unfold random_choice.
  destruct (seq !! _); repeat split.
Qed.

Lemma stub_schema_memory app_id direction :
  respects same_memory (stub_schema_ env app_id direction).
Proof. intros w. repeat split. Qed.

Lemma stub_call_memory app_id request user_id :
  respects same_memory (stub_call_ env app_id request user_id).
Proof. intros w. repeat split. Qed.

Lemma uuid4_memory : respects same_memory (uuid4 env).
Proof. intros w. repeat split. Qed.

Lemma set_file_memory path data : respects same_memory (modify (set_file path data)).
Proof. intros w. repeat split. Qed.

(** The operations that reach outside the process. *)
Ltac memory_leaf :=
  lazymatch goal with
  | |- respects _ (requests_post _ _ _) => exact (requests_post_memory _ _)
  | |- respects _ (random_choice _ _) => exact (random_choice_memory _)
  | |- respects _ (stub_schema_ _ _ _) => exact (stub_schema_memory _ _)
  | |- respects _ (stub_call_ _ _ _ _) => exact (stub_call_memory _ _ _)
  | |- respects _ (uuid4 _) => exact uuid4_memory
  | |- respects _ (modify (set_file _ _)) => exact (set_file_memory _ _)
  end.

Lemma fallback_memory basic_prompt :
  respects same_memory (_create_enhanced_prompt_fallback env basic_prompt).
Proof.
  unfold _create_enhanced_prompt_fallback.
  repeat first [memory_leaf | respects_step].
Qed.

Lemma enhance_prompt_memory user_prompt :
  respects same_memory (enhance_prompt env user_prompt).
Proof.
  unfold enhance_prompt.
  repeat first [memory_leaf | exact (fallback_memory _) | respects_step].
Qed.

Lemma enhance_prompt_local_memory user_prompt :
  respects same_memory (enhance_prompt_local env user_prompt).
Proof.
  unfold enhance_prompt_local.
  repeat first [memory_leaf | exact (fallback_memory _) | respects_step].
Qed.

Lemma step_enhance_memory user_prompt :
  respects same_memory (step_enhance env user_prompt).
Proof.
  unfold step_enhance.
  destruct (is_running_in_docker env);
    [apply enhance_prompt_memory | apply enhance_prompt_local_memory].
Qed.

Lemma write_file_memory path data :
  respects same_memory (write_file env path data).
Proof.
  unfold write_file.
  repeat first [memory_leaf | respects_step].
Qed.

Lemma generate_image_memory prompt user_id :
  respects same_memory (_generate_image env self prompt user_id).
Proof.
  unfold _generate_image.
  repeat first [memory_leaf | exact (write_file_memory _ _) | respects_step].
Qed.

Lemma generate_3d_model_memory image_path user_id image_data :
  respects same_memory (_generate_3d_model env self image_path user_id image_data).
Proof.
  unfold _generate_3d_model.
  repeat first [memory_leaf | exact (write_file_memory _ _) | respects_step].
Qed.

Lemma generate_3d_model2_memory image_data user_id :
  respects same_memory (_generate_3d_model2 env self image_data user_id).
Proof.
  unfold _generate_3d_model2.
  repeat first [memory_leaf | respects_step].
Qed.

Lemma step_image_memory enhanced_prompt user_id result :
  respects same_memory (step_image env self enhanced_prompt user_id result).
Proof.
  unfold step_image.
  repeat first [exact (generate_image_memory _ _) | respects_step].
Qed.

Lemma step_model_memory user_id l :
  respects same_memory (step_model env self user_id l).
Proof.
  unfold step_model.
  repeat first
    [ memory_leaf
    | exact (generate_3d_model_memory _ _ _)
    | exact (generate_3d_model2_memory _ _)
    | exact (write_file_memory _ _)
    | respects_step ].
Qed.

(** Nothing before "Step 4" touches the ledger or the session cache. *)
Lemma process_stages_memory user_prompt user_id :
  respects same_memory (process_stages env self user_prompt user_id).
Proof.
  unfold process_stages.
  repeat first
    [ exact (step_enhance_memory _)
    | exact (step_image_memory _ _ _)
    | exact (step_model_memory _ _)
    | respects_step ].
Qed.

(** *** The stub log *)

Lemma requests_post_log P url payload :
  respects (log_grows P) (requests_post env url payload).
Proof. intros w. now apply log_grows_same. Qed.

Lemma random_choice_log P seq : respects (log_grows P) (random_choice env seq).
Proof.
  intros w. unfold random_choice.
  destruct (seq !! _); now apply log_grows_same.
Qed.

Lemma uuid4_log P : respects (log_grows P) (uuid4 env).
Proof. intros w. now apply log_grows_same. Qed.

Lemma set_file_log P path data : respects (log_grows P) (modify (set_file path data)).
Proof. intros w. now apply log_grows_same. Qed.

Lemma stub_schema_log (P : stub_event → Prop) app_id direction :
  P (SchemaEvent app_id direction) →
  respects (log_grows P) (stub_schema_ env app_id direction).
Proof. intros H w. now apply log_grows_one. Qed.

Lemma stub_call_log (P : stub_event → Prop) app_id request user_id :
  P (CallEvent app_id request user_id) →
  respects (log_grows P) (stub_call_ env app_id request user_id).
Proof. intros H w. now apply log_grows_one. Qed.

(** The stub is not addressed by the operations of the first group; a
    stub operation must address an event that satisfies the predicate. *)
Ltac log_leaf :=
  lazymatch goal with
  | |- respects _ (requests_post _ _ _) => exact (requests_post_log _ _ _)
  | |- respects _ (random_choice _ _) => exact (random_choice_log _ _)
  | |- respects _ (uuid4 _) => exact (uuid4_log _)
  | |- respects _ (modify (set_file _ _)) => exact (set_file_log _ _ _)
  | |- respects _ (stub_schema_ _ _ _) =>
      refine (stub_schema_log _ _ _ _); reflexivity
  | |- respects _ (stub_call_ _ _ _ _) =>
      refine (stub_call_log _ _ _ _ _); reflexivity
  end.

(** Prompt enhancement does not address the stub at all. *)
Lemma step_enhance_silent user_prompt :
  respects (log_grows (λ _, False)) (step_enhance env user_prompt).
Proof.
  unfold step_enhance, enhance_prompt, enhance_prompt_local,
    _create_enhanced_prompt_fallback.
  repeat first [log_leaf | respects_step].
Qed.

Lemma step_enhance_log user_prompt (w : World) :
  stub_log (step_enhance env user_prompt w).2 = stub_log w.
Proof.
  destruct (step_enhance_silent user_prompt w) as (evs & H & F).
  destruct evs as [|ev evs]; [now rewrite app_nil_r in H|].
  inversion F as [|? ? []].
Qed.

(** [_generate_image] addresses the text-to-image capability only. *)
Lemma generate_image_log prompt user_id :
  respects (log_grows (λ ev, event_app ev = text_to_image_app_id self))
           (_generate_image env self prompt user_id).
Proof.
  unfold _generate_image, write_file.
  repeat first [log_leaf | respects_step].
Qed.

End Frames.

(** ** Prompt enhancement *)

Section Enhance.
Context (env : Env).
Import OllamaLlama.

(** A reply other than 200 is answered by the local fallback. *)
Lemma enhance_prompt_not_200 user_prompt w response :
  http_post env "http://host.docker.internal:11434/api/generate"
    {[ "model" := VStr "llama2";
       "prompt" := VStr (instructions user_prompt);
       "stream" := VBool false ]} = Return response →
  status_code response ≠ 200%Z →
  enhance_prompt env user_prompt w
  = _create_enhanced_prompt_fallback env user_prompt
      (log_http "http://host.docker.internal:11434/api/generate" w).
Proof.
  intros Hpost Hcode. unfold enhance_prompt, bind, requests_post.
  rewrite Hpost. apply Z.eqb_neq in Hcode. now rewrite Hcode.
Qed.

Lemma enhance_prompt_local_not_200 user_prompt w response :
  http_post env "http://localhost:11434/api/generate"
    {[ "model" := VStr "llama2";
       "prompt" := VStr (instructions_local user_prompt);
       "stream" := VBool false ]} = Return response →
  status_code response ≠ 200%Z →
  enhance_prompt_local env user_prompt w
  = _create_enhanced_prompt_fallback env user_prompt
      (log_http "http://localhost:11434/api/generate" w).
Proof.
  intros Hpost Hcode. unfold enhance_prompt_local, bind, requests_post.
  rewrite Hpost. apply Z.eqb_neq in Hcode. now rewrite Hcode.
Qed.

End Enhance.

(** C2 (the code departs from the claim).  When [requests.post] raises, as
    it does when the backend cannot be reached, neither [enhance_prompt]
    nor [enhance_prompt_local] falls back: both raise the same exception,
    and [process], in either environment, ends in its outer handler with
    the terminal-error dictionary. *)
Theorem enhance_prompt_transport_failure (env : Env) (self : CreativePipeline)
    (user_prompt user_id : string) (w : World) (e : exn) :
  (∀ url payload, http_post env url payload = Raise e) →
  (OllamaLlama.enhance_prompt env user_prompt w).1 = Raise e
  ∧ (OllamaLlama.enhance_prompt_local env user_prompt w).1 = Raise e
  ∧ (CreativePipeline.process env self user_prompt user_id w).1
    = Return (terminal_error (str_exn e) user_prompt).
Proof.
  intros Hpost.
  assert (H1 : (OllamaLlama.enhance_prompt env user_prompt w).1 = Raise e).
  { unfold OllamaLlama.enhance_prompt, bind, OllamaLlama.requests_post.
    now rewrite Hpost. }
  assert (H2 : (OllamaLlama.enhance_prompt_local env user_prompt w).1 = Raise e).
  { unfold OllamaLlama.enhance_prompt_local, bind, OllamaLlama.requests_post.
    now rewrite Hpost. }
  split; [exact H1 | split; [exact H2|]].
  unfold CreativePipeline.process, CreativePipeline.process_stages, try_except, bind.
  assert (H : (CreativePipeline.step_enhance env user_prompt w).1 = Raise e).
  { unfold CreativePipeline.step_enhance.
    destruct (CreativePipeline.is_running_in_docker env); assumption. }
  destruct (CreativePipeline.step_enhance env user_prompt w) as [o w1].
  cbn in H. subst o. reflexivity.
Qed.

Lemma enhance_prompt_transport_failure_witness :
  let env := scripted_env (Raise unreachable) [image_reply] None in
  (OllamaLlama.enhance_prompt env "dragon" fresh_world).1 = Raise unreachable
  ∧ (OllamaLlama.enhance_prompt_local env "dragon" fresh_world).1 = Raise unreachable
  ∧ (CreativePipeline.process env demo_pipeline "dragon" "super-user" fresh_world).1
    = Return (terminal_error "connection refused" "dragon").
Proof.
  exact (enhance_prompt_transport_failure
           (scripted_env (Raise unreachable) [image_reply] None)
           demo_pipeline "dragon" "super-user" fresh_world unreachable
           (λ _ _, eq_refl)).
Defined.

(** ** What a computation returns *)

Section Ensures.

Lemma ensures_ret {A} (a : A) (Q : A → Prop) : Q a → ensures (ret a) Q.
Proof. intros H w a' w' E. injection E as <- _. exact H. Qed.

Lemma ensures_raise {A} (e : exn) (Q : A → Prop) : ensures (raise e) Q.
Proof. intros w a w' E. discriminate E. Qed.

Lemma ensures_lift {A} (o : outcome A) (Q : A → Prop) :
  (∀ a, o = Return a → Q a) → ensures (lift o) Q.
Proof. intros H w a w' E. injection E as E _. now apply H. Qed.

Lemma ensures_true {A} (m : Py A) : ensures m (λ _, True).
Proof. intros w a w' _. exact I. Qed.

Lemma ensures_bind {A B} (m : Py A) (k : A → Py B) (P : A → Prop) (Q : B → Prop) :
  ensures m P → (∀ a, P a → ensures (k a) Q) → ensures (bind m k) Q.
Proof.
  intros Hm Hk w b w' E. unfold bind in E.
  destruct (m w) as [[a|e] w1] eqn:Em; [|discriminate E].
  exact (Hk a (Hm _ _ _ Em) _ _ _ E).
Qed.

Lemma ensures_try_except {A} (m : Py A) (h : exn → Py A) (Q : A → Prop) :
  ensures m Q → (∀ e, ensures (h e) Q) → ensures (try_except m h) Q.
Proof.
  intros Hm Hh w a w' E. unfold try_except in E.
  destruct (m w) as [[a0|e] w1] eqn:Em.
  - injection E as <- <-. exact (Hm _ _ _ Em).
  - exact (Hh e _ _ _ E).
Qed.

(** [write_file] returns only when it was given bytes. *)
Lemma write_file_bytes (env : Env) (path : string) (data : pyval) :
  ensures (CreativePipeline.write_file env path data) (λ _, ∃ b, data = VBytes b).
Proof.
  intros w a w' E.
  unfold CreativePipeline.write_file, bind, get_world in E.
  destruct (open_fault env (files w) path); [discriminate E|].
  destruct data; try discriminate E. eauto.
Qed.

(** When both steps of the write succeed the bytes are in the store. *)
Lemma write_file_written (env : Env) (path b : string) (w : World) :
  can_write env w path →
  CreativePipeline.write_file env path (VBytes b) w = (Return tt, set_file path b w).
Proof.
  intros [Ho Hw]. unfold CreativePipeline.write_file, bind, get_world.
  now rewrite Ho, Hw.
Qed.

(** A failing [open] raises and leaves the store alone. *)
Lemma write_file_open_fault (env : Env) (path : string) (data : pyval)
    (w : World) (e : exn) :
  open_fault env (files w) path = Some e →
  CreativePipeline.write_file env path data w = (Raise e, w).
Proof.
  intros Ho. unfold CreativePipeline.write_file, bind, get_world.
  now rewrite Ho.
Qed.

End Ensures.

(** Splits an [ensures] goal along the structure of the program. *)
Ltac ensures_step :=
  cbv beta zeta;
  lazymatch goal with
  | |- ensures (ret _) _ => refine (ensures_ret _ _ _)
  | |- ensures (raise _) _ => refine (ensures_raise _ _)
  | |- ensures (bind (CreativePipeline.write_file _ _ _) _) _ =>
      refine (ensures_bind _ _ _ _ (write_file_bytes _ _ _) _); intros ? [? ?]
  | |- ensures (bind _ _) _ =>
      refine (ensures_bind _ _ (λ _, True) _ (ensures_true _) _); intros ? _
  | |- ensures (try_except _ _) _ =>
      refine (ensures_try_except _ _ _ _ _); [|intros ?]
  | |- ensures (if ?b then _ else _) _ => destruct b eqn:?
  | |- ensures (match ?x with _ => _ end) _ => destruct x eqn:?
  end.

(** ** The image stage *)

Section ImageStage.
Context (env : Env) (self : CreativePipeline).
Import CreativePipeline.

Lemma append_nonempty_r (a b : string) : b ≠ "" → a +:+ b ≠ "".
Proof.
  intros Hb. destruct a as [|c a]; [exact Hb|]. rewrite append_cons. discriminate.
Qed.

(** A path joined from components the last of which is not empty is not
    empty. *)
Lemma os_path_join_nonempty (a : string) (ps : list string) (b : string) :
  b ≠ "" → os_path_join a (ps ++ [b]) ≠ "".
Proof.
  intros Hb. unfold os_path_join. rewrite fold_left_app. cbn.
  destruct (PyStr.startswith "/" b); [exact Hb|].
  destruct (_ || _); repeat apply append_nonempty_r; exact Hb.
Qed.

Lemma artifact_path_truthy (kind hex ext : string) :
  ext ≠ "" →
  truthy_path (Some (os_path_join (output_dir self) [kind; hex +:+ ext])) = true.
Proof.
  intros Hext. unfold truthy_path. cbn [opt_str truthy].
  destruct (String.eqb _ "") eqn:E; [|reflexivity].
  apply String.eqb_eq in E.
  apply (os_path_join_nonempty _ [kind] (hex +:+ ext)) in E; [contradiction|].
  now apply append_nonempty_r.
Qed.

(** What [_generate_image] returns when it returns. *)
Lemma generate_image_returns prompt user_id w image_data image_path w' :
  _generate_image env self prompt user_id w = (Return (image_data, image_path), w') →
  truthy_path (Some image_path) = true ∧ ∃ b, image_data = VBytes b.
Proof.
  intros H.
  enough (Hens : ensures (_generate_image env self prompt user_id)
                   (λ r, truthy_path (Some r.2) = true ∧ ∃ b, r.1 = VBytes b))
    by exact (Hens _ _ _ H).
  unfold _generate_image.
  repeat ensures_step. cbn.
  split; [apply artifact_path_truthy; discriminate | eauto].
Qed.

End ImageStage.

(** C1 (the code departs from the claim).  When [_generate_image] raises,
    [process] skips the 3D stage (the stub log grows by text-to-image
    events only) and computes the tags, but then reads [video_path], which
    is bound only inside the 3D stage: the [UnboundLocalError] lands in the
    outer handler.  The run ends with the terminal-error dictionary, in the
    very world the failed image stage left: no row is written and the
    session cache is not updated. *)
Theorem process_image_failure (env : Env) (self : CreativePipeline)
    (user_prompt user_id enhanced : string) (w w1 w2 : World) (e : exn) :
  CreativePipeline.step_enhance env user_prompt w = (Return enhanced, w1) →
  CreativePipeline._generate_image env self enhanced user_id w1 = (Raise e, w2) →
  CreativePipeline.process env self user_prompt user_id w
  = (Return (terminal_error (str_exn (UnboundLocalError "video_path")) user_prompt),
     w2)
  ∧ same_memory w w2
  ∧ log_grows (λ ev, event_app ev = text_to_image_app_id self) w w2.
Proof.
  intros Henh Himg. split; [|split].
  - unfold CreativePipeline.process, CreativePipeline.process_stages,
      try_except, bind.
    rewrite Henh.
    unfold CreativePipeline.step_image, try_except, bind.
    rewrite Himg. reflexivity.
  - transitivity w1.
    + pose proof (step_enhance_memory env user_prompt w) as H.
      now rewrite Henh in H.
    + pose proof (generate_image_memory env self enhanced user_id w1) as H.
      now rewrite Himg in H.
  - pose proof (generate_image_log env self enhanced user_id w1) as (evs & H & F).
    rewrite Himg in H. cbn in H.
    pose proof (step_enhance_log env user_prompt w) as Hl.
    rewrite Henh in Hl. cbn in Hl.
    exists evs. split; [now rewrite H, Hl | exact F].
Qed.

Lemma process_image_failure_witness :
  let env := scripted_env (llm_says "A Majestic Dragon, Golden Hour")
               [Raise remote_error] None in
  ∃ w2,
    CreativePipeline.process env demo_pipeline "dragon" "super-user" fresh_world
    = (Return (terminal_error
                 (str_exn (UnboundLocalError "video_path")) "dragon"), w2)
    ∧ same_memory fresh_world w2
    ∧ log_grows (λ ev, event_app ev = "text-to-image") fresh_world w2.
Proof.
  eexists.
  refine (process_image_failure
            (scripted_env (llm_says "A Majestic Dragon, Golden Hour")
               [Raise remote_error] None)
            demo_pipeline "dragon" "super-user"
            "A Majestic Dragon, Golden Hour" fresh_world _ _ remote_error _ _);
    vm_compute; reflexivity.
Defined.

(** ** The 3D stage *)

Section ModelStage.
Context (env : Env) (self : CreativePipeline).
Import CreativePipeline.

(** A video path that [_generate_3d_model] returns is a real path. *)
Lemma generate_3d_model_video image_path user_id image_data w
    model_data model_path video w' :
  _generate_3d_model env self image_path user_id image_data w
  = (Return (model_data, model_path, Some video), w') →
  truthy_path (Some video) = true.
Proof.
  intros H.
  enough (Hens : ensures
            (_generate_3d_model env self image_path user_id image_data)
            (λ r, ∀ v, r.2 = Some v → truthy_path (Some v) = true))
    by exact (Hens _ _ _ H video eq_refl).
  unfold _generate_3d_model.
  repeat ensures_step; cbn; intros v Hv; [|discriminate Hv].
  injection Hv as <-. apply artifact_path_truthy. discriminate.
Qed.

(** [_generate_3d_model] from the point where the response is in hand
    and carries model data. *)
Lemma generate_3d_model_answered image_path user_id b w r :
  stub_call env (stub_log w) (image_to_3d_app_id self)
    {[ "input_image" := VStr (Base64.encode (map N_of_ascii (PyStr.chars b))) ]}
    user_id = Return (Some r) →
  truthy (default VNone (r !! "generated_object")) = true →
  let id := uuid4_hex env (uuid_count w) in
  let model_data := default VNone (r !! "generated_object") in
  let model_path := os_path_join (output_dir self) ["models"; id +:+ ".glb"] in
  let video_path := os_path_join (output_dir self) ["videos"; id +:+ ".mp4"] in
  let request : dict :=
    {[ "input_image" := VStr (Base64.encode (map N_of_ascii (PyStr.chars b))) ]} in
  _generate_3d_model env self image_path user_id (VBytes b) w
  = match write_file env model_path model_data
            (tick_uuid (log_stub (CallEvent (image_to_3d_app_id self) request user_id) w))
    with
    | (Raise e, w1) => (Raise e, w1)
    | (Return _, w1) =>
        match r !! "video_object" with
        | None => (Raise (KeyError "video_object"), w1)
        | Some v =>
            if truthy v then
              match write_file env video_path v w1 with
              | (Raise e, w2) => (Raise e, w2)
              | (Return _, w2) => (Return (model_data, model_path, Some video_path), w2)
              end
            else (Return (model_data, model_path, None), w1)
        end
    end.
Proof.
  intros Hcall Hm. cbn zeta.
  unfold _generate_3d_model, try_except, bind, stub_call_, uuid4, raise, ret, lift.
  cbn [Base64.b64encode]. rewrite Hcall.
  destruct (decide (r = ∅)) as [->|_].
  { rewrite lookup_empty in Hm. discriminate Hm. }
  rewrite Hm. cbn [negb].
  destruct (write_file env _ _ _) as [[[]|e] w1]; [|reflexivity].
  destruct (r !! "video_object") as [v|]; [|reflexivity].
  cbn [default from_option id].
  destruct (truthy v); [|reflexivity].
  destruct (write_file env _ v w1) as [[[]|e] w2]; reflexivity.
Qed.

(** With model bytes under [generated_object] and a present, non-empty
    [video_object], both artifacts are written, under one fresh token,
    provided the two files can be written. *)
Lemma generate_3d_model_with_video image_path user_id b w r m v :
  stub_call env (stub_log w) (image_to_3d_app_id self)
    {[ "input_image" := VStr (Base64.encode (map N_of_ascii (PyStr.chars b))) ]}
    user_id = Return (Some r) →
  r !! "generated_object" = Some (VBytes m) → m ≠ "" →
  r !! "video_object" = Some (VBytes v) → v ≠ "" →
  let id := uuid4_hex env (uuid_count w) in
  let model_path := os_path_join (output_dir self) ["models"; id +:+ ".glb"] in
  let video_path := os_path_join (output_dir self) ["videos"; id +:+ ".mp4"] in
  can_write env w model_path →
  can_write env (set_file model_path m w) video_path →
  ∃ w',
    _generate_3d_model env self image_path user_id (VBytes b) w
    = (Return (VBytes m, model_path, Some video_path), w')
    ∧ files w' = <[video_path := v]> (<[model_path := m]> (files w)).
Proof.
  intros Hcall Hm Hmne Hv Hvne. cbn zeta. intros Hw1 Hw2.
  apply String.eqb_neq in Hmne, Hvne.
  rewrite (generate_3d_model_answered _ _ _ _ r Hcall)
    by (rewrite Hm; cbn; now rewrite Hmne).
  rewrite Hm. cbn [default from_option id].
  rewrite write_file_written by exact Hw1.
  rewrite Hv. cbn [truthy]. rewrite Hvne. cbn [negb].
  rewrite write_file_written by exact Hw2.
  eexists. split; reflexivity.
Qed.

(** With model bytes and a [video_object] that is there but empty
    ([None] or no bytes), only the model is written and the video path
    is [None]. *)
Lemma generate_3d_model_empty_video image_path user_id b w r m v :
  stub_call env (stub_log w) (image_to_3d_app_id self)
    {[ "input_image" := VStr (Base64.encode (map N_of_ascii (PyStr.chars b))) ]}
    user_id = Return (Some r) →
  r !! "generated_object" = Some (VBytes m) → m ≠ "" →
  r !! "video_object" = Some v → truthy v = false →
  let id := uuid4_hex env (uuid_count w) in
  let model_path := os_path_join (output_dir self) ["models"; id +:+ ".glb"] in
  can_write env w model_path →
  ∃ w',
    _generate_3d_model env self image_path user_id (VBytes b) w
    = (Return (VBytes m, model_path, None), w')
    ∧ files w' = <[model_path := m]> (files w).
Proof.
  intros Hcall Hm Hmne Hv Hvf. cbn zeta. intros Hw1.
  apply String.eqb_neq in Hmne.
  rewrite (generate_3d_model_answered _ _ _ _ r Hcall)
    by (rewrite Hm; cbn; now rewrite Hmne).
  rewrite Hm. cbn [default from_option id].
  rewrite write_file_written by exact Hw1.
  rewrite Hv, Hvf.
  eexists. split; reflexivity.
Qed.

End ModelStage.

(** C4 (the code departs from the claim).  A response that carries model
    bytes under [generated_object] and has no [video_object] key never
    reaches the model-only branch: [_generate_3d_model] raises.  When the
    model file can be written it is written under the fresh token, and
    then the subscript [response['video_object']] raises [KeyError], which
    [_generate_3d_model] re-raises. *)
Theorem generate_3d_model_absent_video (env : Env) (self : CreativePipeline)
    (image_path user_id b : string) (w : World) (r : dict) (m : string) :
  stub_call env (stub_log w) (image_to_3d_app_id self)
    {[ "input_image" := VStr (Base64.encode (map N_of_ascii (PyStr.chars b))) ]}
    user_id = Return (Some r) →
  r !! "generated_object" = Some (VBytes m) → m ≠ "" →
  r !! "video_object" = None →
  let model_path :=
    os_path_join (output_dir self)
      ["models"; uuid4_hex env (uuid_count w) +:+ ".glb"] in
  ∃ e w',
    CreativePipeline._generate_3d_model env self image_path user_id (VBytes b) w
    = (Raise e, w')
    ∧ (can_write env w model_path →
       e = KeyError "video_object"
       ∧ files w' = <[model_path := m]> (files w)).
Proof.
  intros Hcall Hm Hmne Hv. cbn zeta.
  apply String.eqb_neq in Hmne.
  rewrite (generate_3d_model_answered env self _ _ _ _ r Hcall)
    by (rewrite Hm; cbn; now rewrite Hmne).
  rewrite Hm, Hv. cbn [default from_option id].
  destruct (CreativePipeline.write_file env _ _ _) as [[[]|e] w1] eqn:Hwrite.
  - eexists _, _. split; [reflexivity|]. intros Hcan.
    rewrite write_file_written in Hwrite by exact Hcan.
    injection Hwrite as <-. split; reflexivity.
  - eexists _, _. split; [reflexivity|]. intros Hcan.
    rewrite write_file_written in Hwrite by exact Hcan. discriminate Hwrite.
Qed.

Lemma generate_3d_model_absent_video_witness :
  let env := scripted_env (llm_says "A Majestic Dragon")
               [Return (Some {[ "generated_object" := VBytes "GLB" ]})] None in
  ∃ w',
    CreativePipeline._generate_3d_model env demo_pipeline
      "outputs/images/uuid0.png" "super-user" (VBytes "PNG") fresh_world
    = (Raise (KeyError "video_object"), w')
    ∧ files w' = <["outputs/models/uuid0.glb" := "GLB"]> (files fresh_world).
Proof.
  destruct (generate_3d_model_absent_video
              (scripted_env (llm_says "A Majestic Dragon")
                 [Return (Some {[ "generated_object" := VBytes "GLB" ]})] None)
              demo_pipeline "outputs/images/uuid0.png" "super-user" "PNG"
              fresh_world {[ "generated_object" := VBytes "GLB" ]} "GLB"
              ltac:(vm_compute; reflexivity) ltac:(vm_compute; reflexivity)
              ltac:(discriminate) ltac:(vm_compute; reflexivity))
    as (e & w' & Hrun & Hwritten).
  destruct (Hwritten (conj eq_refl eq_refl)) as [-> Hfiles].
  exists w'. vm_compute. vm_compute in Hrun, Hfiles. split; assumption.
Defined.

(** ** Persistence *)

Section Persistence.
Context (env : Env).
Import MemoryManager.

Lemma pretty_8 : pretty 8 = "8".
Proof. vm_compute. reflexivity. Qed.

Lemma join_tags_list (tags : list string) :
  join_tags (VList tags) = Return (PyStr.join "," tags).
Proof. destruct tags; reflexivity. Qed.

Lemma bind_param_opt_str (o : option string) :
  Sqlite.bind_param (opt_str o) = Return o.
Proof. destruct o; reflexivity. Qed.

(** The database answers: one row is appended and its id returned. *)
Lemma save_creation_ok w prompt enhanced_prompt image_path model_path tags user_id :
  sqlite_fault env (db_ops w) = None →
  save_creation env
    [VStr prompt; VStr enhanced_prompt; opt_str image_path; opt_str model_path;
     VList tags; VStr user_id] w
  = (Return (creations_seq w + 1)%Z,
     add_row (inserted_row env w prompt enhanced_prompt image_path model_path
                tags user_id)
             (tick_clock (tick_db w))).
Proof.
  intros Hdb.
  unfold save_creation, save_creation_body, try_except, bind, sqlite3_connect,
    insert_creation, datetime_now_isoformat, lift, get_world, modify, ret.
  rewrite Hdb, join_tags_list, !bind_param_opt_str. reflexivity.
Qed.

(** The database fails: the handler of [save_creation] swallows the
    exception and returns -1; no row is written. *)
Lemma save_creation_fault w e prompt enhanced_prompt image_path model_path tags user_id :
  sqlite_fault env (db_ops w) = Some e →
  save_creation env
    [prompt; enhanced_prompt; image_path; model_path; tags; user_id] w
  = (Return (-1)%Z, tick_db w).
Proof.
  intros Hdb.
  unfold save_creation, save_creation_body, try_except, bind, sqlite3_connect.
  now rewrite Hdb.
Qed.

(** Seven positional arguments do not fit the six parameters. *)
Lemma save_creation_seven a1 a2 a3 a4 a5 a6 a7 w :
  save_creation env [a1; a2; a3; a4; a5; a6; a7] w
  = (Raise (TypeError
       "MemoryManager.save_creation() takes from 5 to 7 positional arguments but 8 were given"),
     w).
Proof.
  unfold save_creation. cbn [length]. rewrite pretty_8. reflexivity.
Qed.

End Persistence.

(** ** The stages of [process], one outcome at a time *)

Section Stages.
Context (env : Env) (self : CreativePipeline).
Import CreativePipeline.

Lemma step_image_returned enhanced user_id (tracking : dict) w data file w' :
  _generate_image env self enhanced user_id w = (Return (data, file), w') →
  step_image env self enhanced user_id tracking w
  = (Return
       (MkLocals
          (dict_append "stages_completed" "image_generation"
             (<["image_path" := VStr file]> tracking))
          data (Some file) None None),
     w').
Proof.
  intros H. unfold step_image, try_except, bind. now rewrite H.
Qed.

Lemma step_image_raised enhanced user_id (tracking : dict) w e w' :
  _generate_image env self enhanced user_id w = (Raise e, w') →
  step_image env self enhanced user_id tracking w
  = (Return
       (MkLocals
          (dict_append "errors" ("Image generation failed: " +:+ str_exn e) tracking)
          VNone None None None),
     w').
Proof.
  intros H. unfold step_image, try_except, bind. now rewrite H.
Qed.

(** Without an image the 3D stage is skipped and [video_path] stays
    unbound. *)
Lemma step_model_skipped user_id (l : Locals) w :
  truthy_path (image_path l) = false →
  step_model env self user_id l w
  = (Return
       (MkLocals
          (dict_append "errors" "Skipped 3D model generation due to missing image"
             (result l))
          (image_data l) (image_path l) None (video_path l)),
     w).
Proof. intros H. unfold step_model. now rewrite H. Qed.

Lemma step_model_primary user_id (l : Locals) file w data path video w' :
  image_path l = Some file →
  truthy_path (Some file) = true →
  _generate_3d_model env self file user_id (image_data l) w
  = (Return (data, path, video), w') →
  step_model env self user_id l w
  = (Return
       (MkLocals
          (dict_append "stages_completed" "model_generation"
             (<["model_path" := VStr path]> (result l)))
          (image_data l) (image_path l) (Some path) (Some video)),
     w').
Proof.
  intros Hfile Htruthy H. unfold step_model. rewrite Hfile, Htruthy.
  change (default "" (Some file)) with file.
  unfold try_except, bind. now rewrite H.
Qed.

Lemma step_model_fallback user_id (l : Locals) file w e w1 b w2 :
  image_path l = Some file →
  truthy_path (Some file) = true →
  _generate_3d_model env self file user_id (image_data l) w = (Raise e, w1) →
  _generate_3d_model2 env self (image_data l) user_id w1 = (Return (VBytes b), w2) →
  b ≠ "" →
  let path :=
    os_path_join (output_dir self) ["models"; uuid4_hex env (uuid_count w2) +:+ ".glb"] in
  can_write env w2 path →
  step_model env self user_id l w
  = (Return
       (MkLocals
          (dict_append "stages_completed" "model_generation_fallback"
             (<["model_path" := VStr path]>
                (dict_append "errors"
                   ("3D model generation failed: " +:+ str_exn e) (result l))))
          (image_data l) (image_path l) (Some path) (Some None)),
     set_file path b (tick_uuid w2)).
Proof.
  intros Hfile Htruthy H1 H2 Hb. cbn zeta. intros Hcan. unfold step_model.
  rewrite Hfile, Htruthy. change (default "" (Some file)) with file.
  unfold try_except, bind. rewrite H1, H2. cbn [truthy].
  apply String.eqb_neq in Hb. rewrite Hb. cbn [negb]. unfold uuid4.
  rewrite write_file_written by exact Hcan. reflexivity.
Qed.

(** The fallback's write sits outside every inner [try]: when its [open]
    fails, the exception leaves [step_model]. *)
Lemma step_model_fallback_unwritten user_id (l : Locals) file w e w1 b w2 e' :
  image_path l = Some file →
  truthy_path (Some file) = true →
  _generate_3d_model env self file user_id (image_data l) w = (Raise e, w1) →
  _generate_3d_model2 env self (image_data l) user_id w1 = (Return (VBytes b), w2) →
  b ≠ "" →
  open_fault env (files w2)
    (os_path_join (output_dir self) ["models"; uuid4_hex env (uuid_count w2) +:+ ".glb"])
  = Some e' →
  step_model env self user_id l w = (Raise e', tick_uuid w2).
Proof.
  intros Hfile Htruthy H1 H2 Hb Hopen. unfold step_model.
  rewrite Hfile, Htruthy. change (default "" (Some file)) with file.
  unfold try_except, bind. rewrite H1, H2. cbn [truthy].
  apply String.eqb_neq in Hb. rewrite Hb. cbn [negb]. unfold uuid4.
  rewrite (write_file_open_fault env _ _ _ e') by exact Hopen. reflexivity.
Qed.

(** The fallback yields nothing usable: the model path stays [None]. *)
Lemma step_model_both_failed user_id (l : Locals) file w e w1 v w2 :
  image_path l = Some file →
  truthy_path (Some file) = true →
  _generate_3d_model env self file user_id (image_data l) w = (Raise e, w1) →
  _generate_3d_model2 env self (image_data l) user_id w1 = (Return v, w2) →
  truthy v = false →
  step_model env self user_id l w
  = (Return
       (MkLocals
          (dict_append "errors"
             ("3D model generation failed: " +:+ str_exn e) (result l))
          (image_data l) (image_path l) None (Some None)),
     w2).
Proof.
  intros Hfile Htruthy H1 H2 Hv. unfold step_model.
  rewrite Hfile, Htruthy. change (default "" (Some file)) with file.
  unfold try_except, bind. now rewrite H1, H2, Hv.
Qed.

(** What the success dictionary holds, and what it does not. *)
Lemma success_dict_lookup creation_id user_prompt enhanced image model tags :
  let d := success_dict creation_id user_prompt enhanced image model tags in
  d !! "creation_id" = Some (VInt creation_id)
  ∧ d !! "original_prompt" = Some (VStr user_prompt)
  ∧ d !! "enhanced_prompt" = Some (VStr enhanced)
  ∧ d !! "image_path" = Some image
  ∧ d !! "model_path" = Some model
  ∧ d !! "tags" = Some (VList tags)
  ∧ d !! "stages_completed" = None
  ∧ d !! "errors" = None
  ∧ d !! "error" = None
  ∧ d !! "stage" = None.
Proof. cbn zeta. repeat split; vm_compute; reflexivity. Qed.

(** What the terminal-error dictionary holds, and what it does not. *)
Lemma terminal_error_lookup message user_prompt :
  let d := terminal_error message user_prompt in
  d !! "error" = Some (VStr message)
  ∧ d !! "stage" = Some (VStr "pipeline_process")
  ∧ d !! "original_prompt" = Some (VStr user_prompt)
  ∧ d !! "creation_id" = None
  ∧ d !! "image_path" = None
  ∧ d !! "model_path" = None.
Proof. cbn zeta. repeat split; vm_compute; reflexivity. Qed.

(** The tracking dictionary after a run that went through the fallback. *)
Lemma tracking_after_fallback (image model message : string) :
  dict_append "stages_completed" "model_generation_fallback"
    (<["model_path" := VStr model]>
       (dict_append "errors" message
          (dict_append "stages_completed" "image_generation"
             (<["image_path" := VStr image]>
                ({[ "stages_completed" := VList [];
                    "errors" := VList [];
                    "image_path" := VNone;
                    "model_path" := VNone ]} : dict)))))
  !! "stages_completed"
  = Some (VList ["image_generation"; "model_generation_fallback"]).
Proof. vm_compute. reflexivity. Qed.

(** The six-argument call of [save_creation] that [process] makes always
    returns: its body catches every exception. *)
Lemma save_creation_returns a1 a2 a3 a4 a5 a6 w :
  ∃ creation_id w',
    MemoryManager.save_creation env [a1; a2; a3; a4; a5; a6] w
    = (Return creation_id, w').
Proof.
  unfold MemoryManager.save_creation, MemoryManager.save_creation_body,
    try_except.
  match goal with
  | |- context [bind ?m ?k w] => destruct (bind m k w) as [[i|e] w1]
  end; eauto.
Qed.

Lemma process_persist_unbound user_prompt user_id enhanced (l : Locals) w :
  video_path l = None →
  process_persist env user_prompt user_id enhanced l w
  = (Raise (UnboundLocalError "video_path"), w).
Proof. intros H. unfold process_persist, bind. now rewrite H. Qed.

Lemma process_persist_video user_prompt user_id enhanced (l : Locals) video w :
  video_path l = Some (Some video) →
  truthy_path (Some video) = true →
  process_persist env user_prompt user_id enhanced l w
  = (Raise (TypeError
       "MemoryManager.save_creation() takes from 5 to 7 positional arguments but 8 were given"),
     w).
Proof.
  intros H Ht. unfold process_persist, bind. rewrite H, Ht.
  now rewrite save_creation_seven.
Qed.

(** With [video_path] bound and falsy the six-argument call is made; its
    result decides nothing but the [creation_id]. *)
Lemma process_persist_plain user_prompt user_id enhanced (l : Locals) video w
    creation_id w1 :
  video_path l = Some video →
  truthy_path video = false →
  MemoryManager.save_creation env
    [VStr user_prompt; VStr enhanced; opt_str (image_path l);
     opt_str (model_path l); VList (_extract_tags (set_iter env) enhanced);
     VStr user_id] w
  = (Return creation_id, w1) →
  process_persist env user_prompt user_id enhanced l w
  = (Return
       ({[ "creation_id" := VInt creation_id;
           "original_prompt" := VStr user_prompt;
           "enhanced_prompt" := VStr enhanced;
           "image_path" := opt_str (image_path l);
           "model_path" := opt_str (model_path l);
           "tags" := VList (_extract_tags (set_iter env) enhanced) ]} : dict),
     set_short_term "last_model_path" (opt_str (model_path l))
       (set_short_term "last_image_path" (opt_str (image_path l))
          (set_short_term "last_enhanced_prompt" (VStr enhanced)
             (set_short_term "last_prompt" (VStr user_prompt) w1)))).
Proof.
  intros H Ht Hsave. unfold process_persist, bind. rewrite H, Ht, Hsave.
  reflexivity.
Qed.

(** [process] in terms of its two halves. *)
Lemma process_unfold user_prompt user_id w :
  process env self user_prompt user_id w
  = match process_stages env self user_prompt user_id w with
    | (Return (enhanced, l), w1) =>
        match process_persist env user_prompt user_id enhanced l w1 with
        | (Return d, w2) => (Return d, w2)
        | (Raise e, w2) => (Return (terminal_error (str_exn e) user_prompt), w2)
        end
    | (Raise e, w1) => (Return (terminal_error (str_exn e) user_prompt), w1)
    end.
Proof.
  unfold process, try_except, bind.
  destruct (process_stages env self user_prompt user_id w) as [[[enhanced l]|e] w1];
    reflexivity.
Qed.

Lemma process_stages_unfold user_prompt user_id w enhanced w1 l1 w2 l2 w3 :
  step_enhance env user_prompt w = (Return enhanced, w1) →
  step_image env self enhanced user_id
    {[ "stages_completed" := VList [];
       "errors" := VList [];
       "image_path" := VNone;
       "model_path" := VNone ]} w1 = (Return l1, w2) →
  step_model env self user_id l1 w2 = (Return l2, w3) →
  process_stages env self user_prompt user_id w = (Return (enhanced, l2), w3).
Proof.
  intros H1 H2 H3. unfold process_stages, bind. now rewrite H1, H2, H3.
Qed.

End Stages.

(** C3 (the code departs from the claim).  When the 3D stage returns a
    video path, [process] calls [save_creation] with seven positional
    arguments; the method takes six, so the call raises [TypeError] before
    its body runs.  The run ends with the terminal-error dictionary, no
    row is written and the session cache is not updated. *)
Theorem process_video_run_fails (env : Env) (self : CreativePipeline)
    (user_prompt user_id enhanced : string) (w w1 w2 w3 : World)
    (image_data model_data : pyval) (image_path model_path video : string) :
  CreativePipeline.step_enhance env user_prompt w = (Return enhanced, w1) →
  CreativePipeline._generate_image env self enhanced user_id w1
  = (Return (image_data, image_path), w2) →
  CreativePipeline._generate_3d_model env self image_path user_id image_data w2
  = (Return (model_data, model_path, Some video), w3) →
  CreativePipeline.process env self user_prompt user_id w
  = (Return (terminal_error
       "MemoryManager.save_creation() takes from 5 to 7 positional arguments but 8 were given"
       user_prompt), w3)
  ∧ same_memory w w3.
Proof.
  intros Henh Himg Hmodel.
  pose proof (generate_image_returns _ _ _ _ _ _ _ _ Himg) as [Hip _].
  pose proof (generate_3d_model_video _ _ _ _ _ _ _ _ _ _ Hmodel) as Hvp.
  split.
  - rewrite process_unfold.
    erewrite process_stages_unfold;
      [ | exact Henh
        | apply step_image_returned; exact Himg
        | eapply step_model_primary; [reflexivity | exact Hip | exact Hmodel] ].
    erewrite process_persist_video; [reflexivity | reflexivity | exact Hvp].
  - transitivity w1; [|transitivity w2].
    + pose proof (step_enhance_memory env user_prompt w) as H.
      now rewrite Henh in H.
    + pose proof (generate_image_memory env self enhanced user_id w1) as H.
      now rewrite Himg in H.
    + pose proof (generate_3d_model_memory env self image_path user_id image_data w2) as H.
      now rewrite Hmodel in H.
Qed.

Lemma process_video_run_fails_witness :
  let env := scripted_env (llm_says "A Majestic Dragon, Golden Hour")
               [image_reply;
                Return (Some {[ "generated_object" := VBytes "GLB";
                                "video_object" := VBytes "MP4" ]})] None in
  ∃ w3,
    CreativePipeline.process env demo_pipeline "dragon" "super-user" fresh_world
    = (Return (terminal_error
         "MemoryManager.save_creation() takes from 5 to 7 positional arguments but 8 were given"
         "dragon"), w3)
    ∧ same_memory fresh_world w3.
Proof.
  pose (env := scripted_env (llm_says "A Majestic Dragon, Golden Hour")
                 [image_reply;
                  Return (Some {[ "generated_object" := VBytes "GLB";
                                  "video_object" := VBytes "MP4" ]})] None).
  pose (enhanced := "A Majestic Dragon, Golden Hour").
  pose (image := "outputs/images/uuid0.png").
  let w1 := eval vm_compute in
    (CreativePipeline.step_enhance env "dragon" fresh_world).2 in
  let w2 := eval vm_compute in
    (CreativePipeline._generate_image env demo_pipeline enhanced "super-user" w1).2 in
  let w3 := eval vm_compute in
    (CreativePipeline._generate_3d_model env demo_pipeline image "super-user"
       (VBytes "PNG") w2).2 in
  pose proof (process_video_run_fails env demo_pipeline "dragon" "super-user"
                enhanced fresh_world w1 w2 w3 (VBytes "PNG") (VBytes "GLB") image
                "outputs/models/uuid1.glb" "outputs/videos/uuid1.mp4") as H.
  do 3 (let T := type of H in
        match T with
        | ?P → _ => assert (HP : P) by (vm_compute; reflexivity);
                    specialize (H HP); clear HP
        end).
  eexists. exact H.
Defined.

(** ** The degraded fallback *)

(** C5, as the code has it.  When the primary 3D attempt raises, the
    fallback returns non-empty model bytes and the model file can be
    written, the stages end with the bytes written under a fresh token and
    with the tracking dictionary's [stages_completed] reading
    image_generation, model_generation_fallback; [process] then returns the
    success dictionary, whose [model_path] is that path (not [None]).  The
    tracking dictionary is dropped: the returned dictionary has neither a
    [stages_completed] nor an [error] key. *)
Theorem process_fallback_success (env : Env) (self : CreativePipeline)
    (user_prompt user_id enhanced : string) (w w1 w2 w3 w4 : World)
    (image_data : pyval) (image_path b : string) (e : exn) :
  CreativePipeline.step_enhance env user_prompt w = (Return enhanced, w1) →
  CreativePipeline._generate_image env self enhanced user_id w1
  = (Return (image_data, image_path), w2) →
  CreativePipeline._generate_3d_model env self image_path user_id image_data w2
  = (Raise e, w3) →
  CreativePipeline._generate_3d_model2 env self image_data user_id w3
  = (Return (VBytes b), w4) →
  b ≠ "" →
  let model_path :=
    os_path_join (output_dir self)
      ["models"; uuid4_hex env (uuid_count w4) +:+ ".glb"] in
  can_write env w4 model_path →
  (∃ l w5,
     CreativePipeline.process_stages env self user_prompt user_id w
     = (Return (enhanced, l), w5)
     ∧ result l !! "stages_completed"
       = Some (VList ["image_generation"; "model_generation_fallback"])
     ∧ files w5 !! model_path = Some b)
  ∧ ∃ d w',
      CreativePipeline.process env self user_prompt user_id w = (Return d, w')
      ∧ d !! "model_path" = Some (VStr model_path)
      ∧ model_path ≠ ""
      ∧ d !! "stages_completed" = None
      ∧ d !! "error" = None.
Proof.
  intros Henh Himg Hmodel Hfb Hb. cbn zeta. intros Hcan.
  pose proof (generate_image_returns _ _ _ _ _ _ _ _ Himg) as [Hip _].
  assert (Hpath :
    os_path_join (output_dir self)
      ["models"; uuid4_hex env (uuid_count w4) +:+ ".glb"] ≠ "").
  { apply (os_path_join_nonempty _ ["models"]), append_nonempty_r. discriminate. }
  pose proof
    (process_stages_unfold env self user_prompt user_id w enhanced w1 _ w2 _ _
       Henh (step_image_returned _ _ _ _ _ _ _ _ _ Himg)
       (step_model_fallback env self user_id (MkLocals _ _ _ _ _) _ _ _ _ _ _
          eq_refl Hip Hmodel Hfb Hb Hcan))
    as Hstages.
  split.
  - eexists _, _. split; [exact Hstages|]. split.
    + apply tracking_after_fallback.
    + apply lookup_insert_eq.
  - rewrite process_unfold, Hstages.
    match goal with
    | |- context [CreativePipeline.process_persist env ?up ?uid ?enh ?l ?w0] =>
        destruct (save_creation_returns env
                    (VStr up) (VStr enh) (opt_str (Some image_path))
                    (opt_str (Some (os_path_join (output_dir self)
                       ["models"; uuid4_hex env (uuid_count w4) +:+ ".glb"])))
                    (VList (_extract_tags (set_iter env) enh)) (VStr uid) w0)
          as (creation_id & w5 & Hsave)
    end.
    erewrite process_persist_plain; [|reflexivity|reflexivity|exact Hsave].
    eexists _, _. split; [reflexivity|].
    match goal with
    | |- context [_ !! "model_path"] =>
        pose proof (success_dict_lookup creation_id user_prompt enhanced
                      (VStr image_path)
                      (VStr (os_path_join (output_dir self)
                         ["models"; uuid4_hex env (uuid_count w4) +:+ ".glb"]))
                      (_extract_tags (set_iter env) enhanced))
          as (_ & _ & _ & _ & Hmp & _ & Hsc & _ & Herr & _)
    end.
    repeat split; assumption.
Qed.

Lemma process_fallback_success_witness :
  let env := scripted_env (llm_says "A Majestic Dragon, Golden Hour")
               [image_reply; Raise remote_error;
                Return (Some {[ "generated_object" := VBytes "GLB" ]})] None in
  let model_path := "outputs/models/uuid1.glb" in
  (∃ l w5,
     CreativePipeline.process_stages env demo_pipeline "dragon" "super-user" fresh_world
     = (Return ("A Majestic Dragon, Golden Hour", l), w5)
     ∧ result l !! "stages_completed"
       = Some (VList ["image_generation"; "model_generation_fallback"])
     ∧ files w5 !! model_path = Some "GLB")
  ∧ ∃ d w',
      CreativePipeline.process env demo_pipeline "dragon" "super-user" fresh_world
      = (Return d, w')
      ∧ d !! "model_path" = Some (VStr model_path)
      ∧ model_path ≠ ""
      ∧ d !! "stages_completed" = None
      ∧ d !! "error" = None.
Proof.
  pose (env := scripted_env (llm_says "A Majestic Dragon, Golden Hour")
                 [image_reply; Raise remote_error;
                  Return (Some {[ "generated_object" := VBytes "GLB" ]})] None).
  pose (enhanced := "A Majestic Dragon, Golden Hour").
  pose (image := "outputs/images/uuid0.png").
  let w1 := eval vm_compute in
    (CreativePipeline.step_enhance env "dragon" fresh_world).2 in
  let w2 := eval vm_compute in
    (CreativePipeline._generate_image env demo_pipeline enhanced "super-user" w1).2 in
  let w3 := eval vm_compute in
    (CreativePipeline._generate_3d_model env demo_pipeline image "super-user"
       (VBytes "PNG") w2).2 in
  let w4 := eval vm_compute in
    (CreativePipeline._generate_3d_model2 env demo_pipeline (VBytes "PNG")
       "super-user" w3).2 in
  pose proof (process_fallback_success env demo_pipeline "dragon" "super-user"
                enhanced fresh_world w1 w2 w3 w4 (VBytes "PNG") image "GLB"
                remote_error) as H.
  do 4 (let T := type of H in
        match T with
        | ?P → _ => assert (HP : P) by (vm_compute; reflexivity);
                    specialize (H HP); clear HP
        end).
  specialize (H ltac:(discriminate) (conj eq_refl eq_refl)).
  vm_compute in H. vm_compute. exact H.
Defined.

(** Reads a fact about a concrete run off the value the run computes
    to: [H] states the fact by cases on the run. *)
Ltac from_run H :=
  cbn zeta in H |- *;
  match type of H with
  | match ?run with _ => _ end =>
      let r := fresh "r" in
      set (r := run) in *; clearbody r;
      destruct r as [[?d|?e] ?w']; [|contradiction H];
      eexists _, _; split; [reflexivity | exact H]
  end.

(** C5, against the claim as stated, in three runs whose primary 3D
    attempt raises.  The fallback returns model bytes and the file is
    written: the dictionary that [process] returns has no
    [stages_completed] entry at all.  The fallback returns model bytes, but
    none ([b""]): the returned [model_path] is [None].  The fallback
    returns model bytes and [open] fails on the model file: [process]
    returns the terminal-error dictionary, which has no [model_path]. *)
Lemma process_fallback_success_counterexample :
  (let env := scripted_env (llm_says "A Majestic Dragon, Golden Hour")
                [image_reply; Raise remote_error;
                 Return (Some {[ "generated_object" := VBytes "GLB" ]})] None in
   ∃ d w',
     CreativePipeline.process env demo_pipeline "dragon" "super-user" fresh_world
     = (Return d, w')
     ∧ d !! "model_path" = Some (VStr "outputs/models/uuid1.glb")
     ∧ d !! "stages_completed" = None)
  ∧ (let env := scripted_env (llm_says "A Majestic Dragon, Golden Hour")
                  [image_reply; Raise remote_error;
                   Return (Some {[ "generated_object" := VBytes "" ]})] None in
     ∃ d w',
       CreativePipeline.process env demo_pipeline "dragon" "super-user" fresh_world
       = (Return d, w')
       ∧ d !! "model_path" = Some VNone)
  ∧ (let env :=
       with_open_fault
         (scripted_env (llm_says "A Majestic Dragon, Golden Hour")
            [image_reply; Raise remote_error;
             Return (Some {[ "generated_object" := VBytes "GLB" ]})] None)
         (λ path, if PyStr.startswith "outputs/models/" path
                  then Some disk_full else None) in
     ∃ d w',
       CreativePipeline.process env demo_pipeline "dragon" "super-user" fresh_world
       = (Return d, w')
       ∧ d = terminal_error "No space left on device" "dragon"
       ∧ d !! "model_path" = None).
Proof.
  cbn zeta. split; [|split].
  - assert (H :
      match CreativePipeline.process
              (scripted_env (llm_says "A Majestic Dragon, Golden Hour")
                 [image_reply; Raise remote_error;
                  Return (Some {[ "generated_object" := VBytes "GLB" ]})] None)
              demo_pipeline "dragon" "super-user" fresh_world
      with
      | (Return d, _) =>
          d !! "model_path" = Some (VStr "outputs/models/uuid1.glb")
          ∧ d !! "stages_completed" = None
      | (Raise _, _) => False
      end) by (vm_compute; split; reflexivity).
    from_run H.
  - assert (H :
      match CreativePipeline.process
              (scripted_env (llm_says "A Majestic Dragon, Golden Hour")
                 [image_reply; Raise remote_error;
                  Return (Some {[ "generated_object" := VBytes "" ]})] None)
              demo_pipeline "dragon" "super-user" fresh_world
      with
      | (Return d, _) => d !! "model_path" = Some VNone
      | (Raise _, _) => False
      end) by (vm_compute; reflexivity).
    from_run H.
  - assert (H :
      match CreativePipeline.process
              (with_open_fault
                 (scripted_env (llm_says "A Majestic Dragon, Golden Hour")
                    [image_reply; Raise remote_error;
                     Return (Some {[ "generated_object" := VBytes "GLB" ]})] None)
                 (λ path, if PyStr.startswith "outputs/models/" path
                          then Some disk_full else None))
              demo_pipeline "dragon" "super-user" fresh_world
      with
      | (Return d, _) =>
          d = terminal_error "No space left on device" "dragon"
          ∧ d !! "model_path" = None
      | (Raise _, _) => False
      end) by (vm_compute; split; reflexivity).
    from_run H.
Qed.

(** ** A failing insert *)

(** C6, as the code has it.  When the run reaches "Step 4" with
    [video_path] bound to [None] and the database fails, [save_creation]
    swallows the failure and returns -1: no row is written, and the run
    goes on.  The four session keys are overwritten and [process] returns
    the success dictionary with [creation_id] -1. *)
Theorem process_insert_failure (env : Env) (self : CreativePipeline)
    (user_prompt user_id enhanced : string) (w w1 : World) (l : Locals) (e : exn) :
  CreativePipeline.process_stages env self user_prompt user_id w
  = (Return (enhanced, l), w1) →
  video_path l = Some None →
  sqlite_fault env (db_ops w1) = Some e →
  ∃ w',
    CreativePipeline.process env self user_prompt user_id w
    = (Return
         ({[ "creation_id" := VInt (-1);
             "original_prompt" := VStr user_prompt;
             "enhanced_prompt" := VStr enhanced;
             "image_path" := opt_str (image_path l);
             "model_path" := opt_str (model_path l);
             "tags" := VList (_extract_tags (set_iter env) enhanced) ]} : dict),
       w')
    ∧ creations w' = creations w
    ∧ short_term_memory w'
      = <["last_model_path" := opt_str (model_path l)]>
          (<["last_image_path" := opt_str (image_path l)]>
             (<["last_enhanced_prompt" := VStr enhanced]>
                (<["last_prompt" := VStr user_prompt]> (short_term_memory w)))).
Proof.
  intros Hstages Hvideo Hdb.
  pose proof (process_stages_memory env self user_prompt user_id w) as Hmem.
  rewrite Hstages in Hmem. destruct Hmem as (Hrows & _ & Hcache).
  unfold CreativePipeline.process, try_except, bind. rewrite Hstages.
  unfold CreativePipeline.process_persist, bind. rewrite Hvideo.
  cbn [truthy_path opt_str truthy].
  rewrite (save_creation_fault env _ e) by exact Hdb.
  eexists. split; [reflexivity|]. cbn in *. split; congruence.
Qed.

Lemma process_insert_failure_witness :
  let env := scripted_env (llm_says "A Majestic Dragon, Golden Hour")
               [image_reply;
                Return (Some {[ "generated_object" := VBytes "GLB";
                                "video_object" := VNone ]})]
               (Some database_locked) in
  ∃ w',
    CreativePipeline.process env demo_pipeline "dragon" "super-user" fresh_world
    = (Return
         ({[ "creation_id" := VInt (-1);
             "original_prompt" := VStr "dragon";
             "enhanced_prompt" := VStr "A Majestic Dragon, Golden Hour";
             "image_path" := VStr "outputs/images/uuid0.png";
             "model_path" := VStr "outputs/models/uuid1.glb";
             "tags" := VList ["majestic"; "dragon"; "golden"; "hour"] ]} : dict),
       w')
    ∧ creations w' = []
    ∧ short_term_memory w'
      = <["last_model_path" := VStr "outputs/models/uuid1.glb"]>
          (<["last_image_path" := VStr "outputs/images/uuid0.png"]>
             (<["last_enhanced_prompt" := VStr "A Majestic Dragon, Golden Hour"]>
                (<["last_prompt" := VStr "dragon"]> ∅))).
Proof.
  pose (env := scripted_env (llm_says "A Majestic Dragon, Golden Hour")
                 [image_reply;
                  Return (Some {[ "generated_object" := VBytes "GLB";
                                  "video_object" := VNone ]})]
                 (Some database_locked)).
  let r := eval vm_compute in
    (CreativePipeline.process_stages env demo_pipeline "dragon" "super-user"
       fresh_world) in
  lazymatch r with
  | (Return (?enhanced, ?l), ?w1) =>
      pose proof (process_insert_failure env demo_pipeline "dragon" "super-user"
                    enhanced fresh_world w1 l database_locked) as H
  end.
  do 3 (let T := type of H in
        match T with
        | ?P → _ => assert (HP : P) by (vm_compute; reflexivity);
                    specialize (H HP); clear HP
        end).
  vm_compute in H. vm_compute. exact H.
Defined.

(** C6, against the claim as stated: with the database failing on the
    insert, [process] does not return the terminal-error dictionary (there
    is no [stage] and no [error] key, and [creation_id] is -1), and the
    session cache is updated. *)
Lemma process_insert_failure_counterexample :
  let env := scripted_env (llm_says "A Majestic Dragon, Golden Hour")
               [image_reply;
                Return (Some {[ "generated_object" := VBytes "GLB";
                                "video_object" := VNone ]})]
               (Some database_locked) in
  ∃ d w',
    CreativePipeline.process env demo_pipeline "dragon" "super-user" fresh_world
    = (Return d, w')
    ∧ d !! "stage" = None
    ∧ d !! "error" = None
    ∧ d !! "creation_id" = Some (VInt (-1))
    ∧ creations w' = []
    ∧ short_term_memory w' !! "last_prompt" = Some (VStr "dragon").
Proof.
  assert (H :
    match CreativePipeline.process
            (scripted_env (llm_says "A Majestic Dragon, Golden Hour")
               [image_reply;
                Return (Some {[ "generated_object" := VBytes "GLB";
                                "video_object" := VNone ]})]
               (Some database_locked))
            demo_pipeline "dragon" "super-user" fresh_world
    with
    | (Return d, w') =>
        d !! "stage" = None
        ∧ d !! "error" = None
        ∧ d !! "creation_id" = Some (VInt (-1))
        ∧ creations w' = []
        ∧ short_term_memory w' !! "last_prompt" = Some (VStr "dragon")
    | (Raise _, _) => False
    end) by (vm_compute; repeat split; reflexivity).
  from_run H.
Qed.

(** ** The stored tags *)

(** C10, as the code has it.  Every tag [_extract_tags] produces is its own
    lower-casing, has at least 4 characters and holds neither a comma nor
    whitespace.  [save_creation] stores the tags joined by commas, and
    splitting the stored string on commas gives the tag list back whenever
    there is at least one tag. *)
Theorem tags_wellformed_and_roundtrip (env : Env)
    (Hok : set_order_ok (set_iter env)) (prompt : string) :
  let tags := _extract_tags (set_iter env) prompt in
  (∀ t, t ∈ tags →
     PyStr.lower t = t
     ∧ 4 <= String.length t
     ∧ Forall (λ c, c ≠ ","%char ∧ PyStr.isspace c = false) (PyStr.chars t))
  ∧ ∀ (w : World) (user_prompt enhanced user_id : string)
      (image_path model_path : option string),
      sqlite_fault env (db_ops w) = None →
      ∃ (creation_id : Z) (w' : World) (stored : string),
        MemoryManager.save_creation env
          [VStr user_prompt; VStr enhanced; opt_str image_path;
           opt_str model_path; VList tags; VStr user_id] w
        = (Return creation_id, w')
        ∧ col_tags <$> last (creations w') = Some (Some stored)
        ∧ (tags ≠ [] → PyStr.split_sep "," stored = tags).
Proof.
  cbn zeta. split.
  - intros t Ht.
    pose proof (extract_tags_chars _ Hok _ _ Ht) as Hc.
    apply (extract_tags_elem _ Hok) in Ht as [[Hlen _] _].
    split; [|split; [lia|]].
    + apply lower_fixed. eapply Forall_impl; [exact Hc|]. cbn. tauto.
    + eapply Forall_impl; [exact Hc|]. cbn. tauto.
  - intros w user_prompt enhanced user_id image_path model_path Hdb.
    rewrite (save_creation_ok env) by exact Hdb.
    eexists _, _, _. split; [reflexivity|]. split.
    + cbn [creations add_row]. rewrite last_snoc. reflexivity.
    + intros Hne.
      destruct (_extract_tags (set_iter env) prompt) as [|x r] eqn:E;
        [contradiction|].
      assert (Hfree : Forall (λ t, Forall (λ c, c ≠ ","%char) (PyStr.chars t))
                             (x :: r)).
      { apply Forall_forall. intros t Ht. rewrite <- E in Ht.
        pose proof (extract_tags_chars _ Hok _ _ Ht) as Hc.
        eapply Forall_impl; [exact Hc|]. cbn. tauto. }
      unfold PyStr.split_sep.
      now rewrite (split_sep_join "," (x :: r) Hfree "" x r eq_refl).
Qed.

Lemma tags_wellformed_and_roundtrip_witness :
  let env := scripted_env (llm_says "A Majestic Dragon") [] None in
  let tags := _extract_tags (set_iter env) dragon_prompt in
  (∀ t, t ∈ tags →
     PyStr.lower t = t
     ∧ 4 <= String.length t
     ∧ Forall (λ c, c ≠ ","%char ∧ PyStr.isspace c = false) (PyStr.chars t))
  ∧ ∀ (w : World) (user_prompt enhanced user_id : string)
      (image_path model_path : option string),
      sqlite_fault env (db_ops w) = None →
      ∃ (creation_id : Z) (w' : World) (stored : string),
        MemoryManager.save_creation env
          [VStr user_prompt; VStr enhanced; opt_str image_path;
           opt_str model_path; VList tags; VStr user_id] w
        = (Return creation_id, w')
        ∧ col_tags <$> last (creations w') = Some (Some stored)
        ∧ (tags ≠ [] → PyStr.split_sep "," stored = tags).
Proof.
  exact (tags_wellformed_and_roundtrip
           (scripted_env (llm_says "A Majestic Dragon") [] None)
           insertion_order_ok dragon_prompt).
Defined.

(** C10, against the claim as stated: a prompt whose words are all short
    gives no tag; [save_creation] then stores the empty string, and the
    empty string splits on commas into one empty piece, not into the empty
    tag list. *)
Lemma tags_roundtrip_counterexample :
  let env := scripted_env (llm_says "a cat") [] None in
  let tags := _extract_tags (set_iter env) "a cat" in
  tags = []
  ∧ ∃ (creation_id : Z) (w' : World),
      MemoryManager.save_creation env
        [VStr "a cat"; VStr "a cat"; VNone; VNone; VList tags; VStr "super-user"]
        fresh_world
      = (Return creation_id, w')
      ∧ col_tags <$> last (creations w') = Some (Some "")
      ∧ PyStr.split_sep "," "" = [""]
      ∧ PyStr.split_sep "," "" ≠ tags.
Proof.
  cbn zeta. split; [vm_compute; reflexivity|].
  eexists _, _. split; [vm_compute; reflexivity|].
  split; [vm_compute; reflexivity|].
  split; [reflexivity | discriminate].
Qed.

Lemma search_creations_finds_witness :
  ∃ results,
    (MemoryManager.search_creations quiet_env "DRAG" (Some "super-user")
       castle_world).1 = Return results
    ∧ (∀ row, row ∈ results ↔
         row ∈ creations castle_world ∧ where_holds "DRAG" row
         ∧ passes_user_filter (Some "super-user") row)
    ∧ (∀ row, row ∈ creations castle_world →
         passes_user_filter (Some "super-user") row →
         seen_in "DRAG" row → row ∈ results)
    ∧ (wildcard_free "DRAG" →
       ∀ row, row ∈ results →
         seen_in "DRAG" row
         ∧ (ci_occurs "DRAG" (col_prompt row)
            ∨ ci_occurs "DRAG" (col_enhanced_prompt row)
            ∨ ci_occurs "DRAG" (col_tags row))).
Proof.
  exact (search_creations_finds quiet_env castle_world "DRAG"
           (Some "super-user") eq_refl eq_refl).
Defined.

Section Occurrence.
Import PyStr.

Lemma lower_append (a b : string) : lower (a +:+ b) = lower a +:+ lower b.
Proof.
  induction a as [|c a IH]; [reflexivity|].
  rewrite append_cons. cbn [lower]. now rewrite IH, append_cons.
Qed.

Lemma prefix_append (n post : string) : String.prefix n (n +:+ post) = true.
Proof.
  induction n as [|c n IH].
  - rewrite append_nil_l. destruct post; reflexivity.
  - rewrite append_cons. cbn [String.prefix].
    destruct (ascii_dec c c); [exact IH | contradiction].
Qed.

Lemma contains_unfold (needle hay : string) :
  contains needle hay
  = String.prefix needle hay
    || match hay with
       | EmptyString => false
       | String _ r => contains needle r
       end.
Proof. destruct hay; reflexivity. Qed.

Lemma contains_append (pre n post : string) :
  contains n (pre +:+ n +:+ post) = true.
Proof.
  induction pre as [|c pre IH].
  - rewrite append_nil_l, contains_unfold, prefix_append. reflexivity.
  - rewrite append_cons, contains_unfold, IH. apply orb_true_r.
Qed.

(** An occurrence up to case is found by Python's
    [term.lower() in text.lower()]. *)
Lemma ci_occurs_contains (term s : string) :
  ci_occurs term (Some s) → contains (lower term) (lower s) = true.
Proof.
  intros (pre & mid & post & Hs & Hmid). injection Hs as ->.
  rewrite !lower_append, Hmid. apply contains_append.
Qed.

End Occurrence.

(** C9, against the claim as stated.  The term c_stle occurs in no column
    of the castle record, and yet the record is returned: the underscore
    is a wildcard of [LIKE].  The term dragon occurs in the tags of the
    other record, after a NUL character, and yet the record is not
    returned: [LIKE] reads the tags up to the NUL. *)
Lemma search_creations_counterexample :
  ((MemoryManager.search_creations quiet_env "c_stle" None castle_world).1
   = Return [castle_row]
   ∧ ¬ (ci_occurs "c_stle" (col_prompt castle_row)
        ∨ ci_occurs "c_stle" (col_enhanced_prompt castle_row)
        ∨ ci_occurs "c_stle" (col_tags castle_row)))
  ∧ (occurs "dragon" (col_tags nul_row)
     ∧ (MemoryManager.search_creations quiet_env "dragon" None nul_world).1
       = Return []).
Proof.
  split; split.
  - vm_compute. reflexivity.
  - intros [H | [H | H]]; apply ci_occurs_contains in H; vm_compute in H;
      discriminate H.
  - exists (String "x" (String Ascii.zero "")), "". reflexivity.
  - vm_compute. reflexivity.
Qed.
